(** * The Apple Container adapter of lazydocker: output normalisation

    A shallow embedding of [pkg/commands/apple_container.go]: the two list
    parsers ([parseContainerList], [parseImageList]), their field mappers
    ([jsonToContainer], [jsonToImage]), the retrieval operations built on
    them ([GetContainers], [GetImages]) and [SystemStatus].

    Go strings are byte strings and are modelled by [string]; the methods
    write to the logger and call the command executor, which is modelled by
    explicit state passing over a [World].  The JSON decoder and the command
    executor belong to other packages and are parameters of the development;
    a reference decoder is supplied to run the adapter on concrete text. *)

From Stdlib Require Import Ascii String List NArith Lia.
From stdpp Require Import base option list strings gmap pretty.

Local Open Scope string_scope.

(** ** Text helpers *)

(** [dq] is the double quote. [js] turns apostrophes into double quotes, so
    that JSON text can be written as a literal: [js "{'id':'a'}"]. *)
Definition dq : ascii := "034"%char.

Fixpoint js (s : string) : string :=
  match s with
  | "" => ""
  | String c r => String (if Ascii.eqb c "'"%char then dq else c) (js r)
  end.

Definition nl : ascii := "010"%char.

Fixpoint srev_app (s acc : string) : string :=
  match s with
  | "" => acc
  | String c r => srev_app r (String c acc)
  end.

(** The bytes of a string in reverse order. *)
Definition srev (s : string) : string := srev_app s "".

Definition startsWith (c : ascii) (s : string) : bool :=
  match s with
  | String a _ => Ascii.eqb a c
  | "" => false
  end.

Definition endsWith (c : ascii) (s : string) : bool := startsWith c (srev s).

Fixpoint hasByte (c : ascii) (s : string) : bool :=
  match s with
  | "" => false
  | String a r => Ascii.eqb a c || hasByte c r
  end.

Definition byte (n : N) : ascii := ascii_of_N n.

(** The UTF-8 encoding of a code point. *)
Definition EncodeRune (r : N) : string :=
  if (r <? 128)%N then String (byte r) ""
  else if (r <? 2048)%N then
    String (byte (192 + r / 64)) (String (byte (128 + r mod 64)) "")
  else if (r <? 65536)%N then
    String (byte (224 + r / 4096))
      (String (byte (128 + (r / 64) mod 64)) (String (byte (128 + r mod 64)) ""))
  else
    String (byte (240 + r / 262144))
      (String (byte (128 + (r / 4096) mod 64))
         (String (byte (128 + (r / 64) mod 64)) (String (byte (128 + r mod 64)) ""))).

(** ** Package [strings] of the Go library *)

Module strings.

(** White space as [unicode.IsSpace] has it, by UTF-8 encoding: the six
    ASCII characters, U+0085 and U+00A0 on two bytes, and U+1680,
    U+2000..U+200A, U+2028, U+2029, U+202F, U+205F and U+3000 on three. *)
Definition space1 (a : ascii) : bool :=
  let n := N_of_ascii a in
  ((9 <=? n) && (n <=? 13) || (n =? 32))%N.

Definition space2 (a b : ascii) : bool :=
  let n := N_of_ascii a in let m := N_of_ascii b in
  ((n =? 194) && ((m =? 133) || (m =? 160)))%N.

Definition space3 (a b c : ascii) : bool :=
  let n := N_of_ascii a in let m := N_of_ascii b in let k := N_of_ascii c in
  ((n =? 225) && (m =? 154) && (k =? 128)
   || (n =? 226) && (m =? 128)
        && ((128 <=? k) && (k <=? 138) || (k =? 168) || (k =? 169) || (k =? 175))
   || (n =? 226) && (m =? 129) && (k =? 159)
   || (n =? 227) && (m =? 128) && (k =? 128))%N.

(** Strips the white-space runes a string starts with.  [fwd] tells
    whether the bytes come in reading order (leading white space) or in
    reverse order (trailing white space, on the reversed string). *)
Fixpoint trimRunes (fwd : bool) (s : string) : string :=
  match s with
  | "" => ""
  | String a r1 =>
      if space1 a then trimRunes fwd r1 else
      match r1 with
      | "" => s
      | String b r2 =>
          if (if fwd then space2 a b else space2 b a) then trimRunes fwd r2 else
          match r2 with
          | "" => s
          | String c r3 =>
              if (if fwd then space3 a b c else space3 c b a)
              then trimRunes fwd r3 else s
          end
      end
  end.

Definition TrimLeftSpace (s : string) : string := trimRunes true s.
Definition TrimRightSpace (s : string) : string := srev (trimRunes false (srev s)).

(** [strings.TrimSpace]: all leading and trailing white space removed. *)
Definition TrimSpace (s : string) : string := TrimRightSpace (TrimLeftSpace s).

(** [strings.Split s sep] for a separator of one byte: the pieces between
    the separators, one more than there are separators. *)
Fixpoint Split (s : string) (sep : ascii) : list string :=
  match s with
  | "" => [""]
  | String a r =>
      if Ascii.eqb a sep then "" :: Split r sep
      else match Split r sep with
           | piece :: pieces => String a piece :: pieces
           | [] => [String a ""]
           end
  end.

(** [strings.Join] with a separator of one byte. *)
Fixpoint Join (elems : list string) (sep : ascii) : string :=
  match elems with
  | [] => ""
  | [e] => e
  | e :: rest => e ++ String sep (Join rest sep)
  end.

End strings.

(** ** Values *)

(** What [encoding/json] stores in an [interface{}]: [nil] for null, [bool],
    [float64] (kept here as the literal that was read: nothing in the
    adapter looks inside a number), [string], [[]interface{}] and
    [map[string]interface{}]. *)
#[local] Unset Elimination Schemes.
Inductive any : Type :=
  | Nil
  | Bool (b : bool)
  | Float64 (literal : string)
  | Str (s : string)
  | Slice (elems : list any)
  | Map (entries : gmap string any).
#[local] Set Elimination Schemes.

(** A value of type [map[string]interface{}]: [None] is the nil map. *)
Definition RawRecord : Type := option (gmap string any).

(** [data[key]]: the zero value [nil] when the key (or the map) is absent. *)
Definition index (data : RawRecord) (key : string) : any :=
  match data with
  | Some m => default Nil (m !! key)
  | None => Nil
  end.

(** [v.(string)] in its two-result form: the string and [true], or the zero
    value and [false]. *)
Definition assertString (v : any) : string * bool :=
  match v with
  | Str s => (s, true)
  | _ => ("", false)
  end.

(** Go's [error] values, as far as the adapter makes and reads them: a leaf
    error with its message, and what [fmt.Errorf] builds with [%w]. *)
Inductive error : Type :=
  | errorString (msg : string)
  | wrapError (msg : string) (err : error).

Definition Error (e : error) : string :=
  match e with
  | errorString msg => msg
  | wrapError msg _ => msg
  end.

Definition Unwrap (e : error) : option error :=
  match e with
  | errorString _ => None
  | wrapError _ err => Some err
  end.

(** [fmt.Errorf(prefix + "%w", err)]. *)
Definition Errorf_w (prefix : string) (err : error) : error :=
  wrapError (prefix ++ Error err) err.

(** Pointers to the collaborators an entity borrows. *)
Definition ptr : Type := positive.

Record AppleContainerCommand : Type := {
  Log : ptr;
  OSCommand : ptr;
  Tr : ptr;
  Config : ptr;
  ErrorChan : ptr
}.

Module Container.
(** Modelled from the spec: the declaration of the Container type is not
    among the sources.  The fields are those of the spec's data model
    (ID, Name, Image, State) and the borrowed context that
    [jsonToContainer] fills in; a field that a composite literal leaves
    out holds Go's zero value, the empty string. *)
Record t : Type := {
  ID : string;
  Name : string;
  Image : string;
  State : string;
  OSCommand : ptr;
  Log : ptr;
  Tr : ptr
}.
End Container.

Module Image.
(** Modelled from the spec: the declaration of the Image type is not among
    the sources; these are the fields [jsonToImage] fills in. *)
Record t : Type := {
  ID : string;
  Name : string;
  Tag : string;
  OSCommand : ptr;
  Log : ptr
}.
End Image.

(** ** The diagnostics sink *)

Inductive Level : Type := DebugLevel | InfoLevel | WarnLevel | ErrorLevel.

Record Entry : Type := { level : Level; message : string }.

(** A call to the logger: the level of the method called and the message
    it was given, formatted. *)
Definition logged (lv : Level) (msg : string) (entries : list Entry) : list Entry :=
  entries ++ [{| level := lv; message := msg |}].

(** ** The adapter *)

(** The [switch] of [jsonToContainer] that maps the states of Apple
    Container to those of Docker. *)
Definition mapState (state : string) : string :=
  if String.eqb state "stopped" then "exited" (* Map to Docker terminology *)
  else state.

(** [id, _ := data[key].(string)]. *)
Definition field (data : RawRecord) (key : string) : string :=
  fst (assertString (index data key)).

Section Adapter.

(** The command executor ([OSCommand.RunCommandWithOutput]) runs a command
    line against the state of the machine and returns its output and an
    error; the decoder ([json.Unmarshal] into a nil
    [map[string]interface{}]) returns an error or the decoded map. *)
Variable OSState : Type.
Variable RunCommandWithOutput : string -> OSState -> (string * option error) * OSState.
Variable Unmarshal : string -> error + RawRecord.

(** What a method can change: the machine and the log. *)
Record World : Type := { os : OSState; entries : list Entry }.

Definition M (A : Type) : Type := World -> A * World.

Definition ret {A : Type} (a : A) : M A := fun w => (a, w).

Definition bind {A B : Type} (m : M A) (k : A -> M B) : M B :=
  fun w => let (a, w') := m w in k a w'.

Notation "x <- m ;; k" := (bind m (fun x => k))
  (at level 100, m at next level, right associativity).
Notation "m ;; k" := (bind m (fun _ => k))
  (at level 100, right associativity).

Definition Log_at (lv : Level) (msg : string) : M unit :=
  fun w => (tt, {| os := os w; entries := logged lv msg (entries w) |}).

Definition runCommand (cmd : string) : M (string * option error) :=
  fun w => let (r, o) := RunCommandWithOutput cmd (os w) in
           (r, {| os := o; entries := entries w |}).

(** [jsonToContainer] converts JSON data to a Container struct. *)
Definition jsonToContainer (c : AppleContainerCommand) (data : RawRecord)
  : M (option Container.t) :=
  let id := field data "id" in
  let name := field data "name" in
  let image := field data "image" in
  let state := field data "state" in
  if String.eqb id "" || String.eqb name "" then
    Log_at WarnLevel "Container missing required fields (id or name)" ;;
    ret None
  else
    let container :=
      {| Container.ID := id; Container.Name := name;
         Container.Image := ""; Container.State := "";
         Container.OSCommand := OSCommand c; Container.Log := Log c;
         Container.Tr := Tr c |} in
    let mappedState := mapState state in
    Log_at DebugLevel
      ("Parsed container: ID=" ++ id ++ ", Name=" ++ name ++ ", Image=" ++ image
         ++ ", State=" ++ state ++ "->" ++ mappedState) ;;
    ret (Some container).

(** The loop of [parseContainerList] over the lines, [containers] being the
    slice appended to. *)
Fixpoint parseContainerLines (c : AppleContainerCommand) (lines : list string)
    (containers : list Container.t) : M (list Container.t) :=
  match lines with
  | [] => ret containers
  | line :: rest =>
      if String.eqb (strings.TrimSpace line) "" then
        parseContainerLines c rest containers
      else
        match Unmarshal line with
        | inl err =>
            Log_at WarnLevel
              ("Failed to parse container JSON line: " ++ line ++ " error: " ++ Error err) ;;
            parseContainerLines c rest containers
        | inr containerData =>
            container <- jsonToContainer c containerData ;;
            match container with
            | Some ctr => parseContainerLines c rest (containers ++ [ctr])
            | None => parseContainerLines c rest containers
            end
        end
  end.

(** [parseContainerList] parses the output of the ps command. *)
Definition parseContainerList (c : AppleContainerCommand) (output : string)
  : M (list Container.t * option error) :=
  if String.eqb (strings.TrimSpace output) "" then ret ([], None)
  else
    let lines := strings.Split (strings.TrimSpace output) nl in
    containers <- parseContainerLines c lines [] ;;
    ret (containers, None).

(** [GetContainers] retrieves all containers; on an error the slice it
    returns is nil, here the empty list. *)
Definition GetContainers (c : AppleContainerCommand)
  : M (list Container.t * option error) :=
  Log_at InfoLevel "Getting containers from Apple Container" ;;
  r <- runCommand "container ps --format json" ;;
  match snd r with
  | Some err =>
      Log_at ErrorLevel ("Failed to get containers from Apple Container: " ++ Error err) ;;
      ret ([], Some (Errorf_w "failed to get containers: " err))
  | None =>
      p <- parseContainerList c (fst r) ;;
      match snd p with
      | Some err =>
          Log_at ErrorLevel ("Failed to parse container list: " ++ Error err) ;;
          ret ([], Some (Errorf_w "failed to parse container list: " err))
      | None =>
          Log_at InfoLevel ("Found " ++ pretty (length (fst p)) ++ " containers") ;;
          ret (fst p, None)
      end
  end.

(** [jsonToImage] converts JSON data to an Image struct. *)
Definition jsonToImage (c : AppleContainerCommand) (data : RawRecord)
  : M (option Image.t) :=
  let id := field data "id" in
  let name := field data "name" in
  let tag := field data "tag" in
  if String.eqb id "" then
    Log_at WarnLevel "Image missing required ID field" ;;
    ret None
  else
    let image :=
      {| Image.ID := id; Image.Name := name; Image.Tag := tag;
         Image.OSCommand := OSCommand c; Image.Log := Log c |} in
    Log_at DebugLevel
      ("Parsed image: ID=" ++ id ++ ", Name=" ++ name ++ ", Tag=" ++ tag) ;;
    ret (Some image).

Fixpoint parseImageLines (c : AppleContainerCommand) (lines : list string)
    (images : list Image.t) : M (list Image.t) :=
  match lines with
  | [] => ret images
  | line :: rest =>
      if String.eqb (strings.TrimSpace line) "" then
        parseImageLines c rest images
      else
        match Unmarshal line with
        | inl err =>
            Log_at WarnLevel
              ("Failed to parse image JSON line: " ++ line ++ " error: " ++ Error err) ;;
            parseImageLines c rest images
        | inr imageData =>
            image <- jsonToImage c imageData ;;
            match image with
            | Some img => parseImageLines c rest (images ++ [img])
            | None => parseImageLines c rest images
            end
        end
  end.

(** [parseImageList] parses the output of the images list command. *)
Definition parseImageList (c : AppleContainerCommand) (output : string)
  : M (list Image.t * option error) :=
  if String.eqb (strings.TrimSpace output) "" then ret ([], None)
  else
    let lines := strings.Split (strings.TrimSpace output) nl in
    images <- parseImageLines c lines [] ;;
    ret (images, None).

(** [GetImages] retrieves all images. *)
Definition GetImages (c : AppleContainerCommand)
  : M (list Image.t * option error) :=
  Log_at InfoLevel "Getting images from Apple Container" ;;
  r <- runCommand "container images list --format json" ;;
  match snd r with
  | Some err =>
      Log_at ErrorLevel ("Failed to get images from Apple Container: " ++ Error err) ;;
      ret ([], Some (Errorf_w "failed to get images: " err))
  | None =>
      p <- parseImageList c (fst r) ;;
      match snd p with
      | Some err =>
          Log_at ErrorLevel ("Failed to parse image list: " ++ Error err) ;;
          ret ([], Some (Errorf_w "failed to parse image list: " err))
      | None =>
          Log_at InfoLevel ("Found " ++ pretty (length (fst p)) ++ " images") ;;
          ret (fst p, None)
      end
  end.

(** [SystemStatus] gets the status of the system services. *)
Definition SystemStatus (c : AppleContainerCommand) : M (RawRecord * option error) :=
  Log_at InfoLevel "Getting Apple Container system status" ;;
  r <- runCommand "container system status --format json" ;;
  match snd r with
  | Some err => ret (None, Some (Errorf_w "failed to get system status: " err))
  | None =>
      match Unmarshal (fst r) with
      | inl err => ret (None, Some (Errorf_w "failed to parse system status: " err))
      | inr status => ret (status, None)
      end
  end.

End Adapter.

(** ** A reference decoder *)

(** A decoder for JSON text (RFC 8259) into a nil [map[string]interface{}],
    to run the adapter on concrete lines.  It follows [json.Unmarshal] in
    what it accepts and builds: an object gives a map in which the last of
    several equal keys wins, [null] leaves the map nil, any other value is a
    type error, anything else a syntax error.  The messages of syntax
    errors, which report a position, are not reproduced, and bytes above
    127 inside string literals are copied as they are. *)
Module RefJSON.

Definition isWS (a : ascii) : bool :=
  let n := N_of_ascii a in ((n =? 32) || (n =? 9) || (n =? 10) || (n =? 13))%N.

Fixpoint skipWS (s : string) : string :=
  match s with
  | String a r => if isWS a then skipWS r else s
  | "" => ""
  end.

Definition isDigit (a : ascii) : bool :=
  let n := N_of_ascii a in ((48 <=? n) && (n <=? 57))%N.

(** The digits a string starts with, and what follows them. *)
Fixpoint digits (s : string) : string * string :=
  match s with
  | String a r =>
      if isDigit a then let (d, r') := digits r in (String a d, r') else ("", s)
  | "" => ("", "")
  end.

Definition hexVal (a : ascii) : option N :=
  let n := N_of_ascii a in
  if ((48 <=? n) && (n <=? 57))%N then Some (n - 48)%N
  else if ((97 <=? n) && (n <=? 102))%N then Some (n - 87)%N
  else if ((65 <=? n) && (n <=? 70))%N then Some (n - 55)%N
  else None.

(** Four hexadecimal digits and the rest. *)
Definition hex4 (s : string) : option (N * string) :=
  match s with
  | String a (String b (String c (String d r))) =>
      match hexVal a, hexVal b, hexVal c, hexVal d with
      | Some x, Some y, Some z, Some t => Some (((x * 16 + y) * 16 + z) * 16 + t, r)%N
      | _, _, _, _ => None
      end
  | _ => None
  end.

Definition unescape (a : ascii) : option ascii :=
  let n := N_of_ascii a in
  if (n =? 34)%N then Some a            (* quote *)
  else if (n =? 92)%N then Some a       (* backslash *)
  else if (n =? 47)%N then Some a       (* slash *)
  else if (n =? 98)%N then Some (byte 8)
  else if (n =? 102)%N then Some (byte 12)
  else if (n =? 110)%N then Some (byte 10)
  else if (n =? 114)%N then Some (byte 13)
  else if (n =? 116)%N then Some (byte 9)
  else None.

Definition isSurrogate (r : N) : bool := ((55296 <=? r) && (r <? 57344))%N.

(** A [\u] escape whose four digits gave [r], followed by [rest]: a high
    surrogate takes the low surrogate that follows it, a surrogate on its
    own becomes U+FFFD. *)
Definition escapedRune (r : N) (rest : string) : string * string :=
  if isSurrogate r then
    match rest with
    | String b (String u rest') =>
        if ((N_of_ascii b =? 92) && (N_of_ascii u =? 117))%N then
          match hex4 rest' with
          | Some (r2, rest'') =>
              if ((r <? 56320) && (56320 <=? r2) && (r2 <? 57344))%N
              then (EncodeRune ((r - 55296) * 1024 + (r2 - 56320) + 65536)%N, rest'')
              else (EncodeRune 65533, rest)
          | None => (EncodeRune 65533, rest)
          end
        else (EncodeRune 65533, rest)
    | _ => (EncodeRune 65533, rest)
    end
  else (EncodeRune r, rest).

(** A string literal after its opening quote: its value and what follows
    the closing quote. *)
Fixpoint parseString (fuel : nat) (s : string) : option (string * string) :=
  match fuel with
  | O => None
  | S fuel =>
      match s with
      | "" => None
      | String a r =>
          if (N_of_ascii a =? 34)%N then Some ("", r)
          else if (N_of_ascii a =? 92)%N then
            match r with
            | "" => None
            | String e r' =>
                if (N_of_ascii e =? 117)%N then
                  match hex4 r' with
                  | Some (cp, r'') =>
                      let (bytes, rest) := escapedRune cp r'' in
                      match parseString fuel rest with
                      | Some (v, rest') => Some (bytes ++ v, rest')
                      | None => None
                      end
                  | None => None
                  end
                else
                  match unescape e with
                  | Some b =>
                      match parseString fuel r' with
                      | Some (v, rest') => Some (String b v, rest')
                      | None => None
                      end
                  | None => None
                  end
            end
          else if (N_of_ascii a <? 32)%N then None
          else
            match parseString fuel r with
            | Some (v, rest') => Some (String a v, rest')
            | None => None
            end
      end
  end.

(** A number: its literal and what follows it. *)
Definition parseNumber (s : string) : option (string * string) :=
  let (sign, s1) :=
    match s with
    | String a r => if (N_of_ascii a =? 45)%N then (String a "", r) else ("", s)
    | "" => ("", s)
    end in
  let (int, s2) := digits s1 in
  if String.eqb int "" then None
  else if startsWith "0"%char int && negb (String.eqb int "0") then None
  else
    let frac :=
      match s2 with
      | String a r =>
          if (N_of_ascii a =? 46)%N then
            let (d, r') := digits r in
            if String.eqb d "" then None else Some (String a d, r')
          else Some ("", s2)
      | "" => Some ("", s2)
      end in
    match frac with
    | None => None
    | Some (f, s3) =>
        let exp :=
          match s3 with
          | String a r =>
              if ((N_of_ascii a =? 101) || (N_of_ascii a =? 69))%N then
                let (sg, r1) :=
                  match r with
                  | String b r' =>
                      if ((N_of_ascii b =? 43) || (N_of_ascii b =? 45))%N
                      then (String b "", r') else ("", r)
                  | "" => ("", r)
                  end in
                let (d, r2) := digits r1 in
                if String.eqb d "" then None else Some (String a (sg ++ d), r2)
              else Some ("", s3)
          | "" => Some ("", s3)
          end in
        match exp with
        | None => None
        | Some (e, s4) => Some (sign ++ int ++ f ++ e, s4)
        end
    end.

(** [s] without the prefix [p], when it starts with it. *)
Fixpoint stripPrefix (p s : string) : option string :=
  match p, s with
  | "", _ => Some s
  | String a p', String b s' => if Ascii.eqb a b then stripPrefix p' s' else None
  | _, "" => None
  end.

Fixpoint parseValue (fuel : nat) (s : string) : option (any * string) :=
  match fuel with
  | O => None
  | S fuel =>
      match skipWS s with
      | "" => None
      | String a r =>
          let n := N_of_ascii a in
          if (n =? 123)%N then            (* object *)
            match skipWS r with
            | String b r' =>
                if (N_of_ascii b =? 125)%N then Some (Map ∅, r')
                else
                  match parseMembers fuel r ∅ with
                  | Some (m, rest) => Some (Map m, rest)
                  | None => None
                  end
            | "" => None
            end
          else if (n =? 91)%N then        (* array *)
            match skipWS r with
            | String b r' =>
                if (N_of_ascii b =? 93)%N then Some (Slice [], r')
                else
                  match parseElements fuel r with
                  | Some (l, rest) => Some (Slice l, rest)
                  | None => None
                  end
            | "" => None
            end
          else if (n =? 34)%N then
            match parseString (S (String.length r)) r with
            | Some (v, rest) => Some (Str v, rest)
            | None => None
            end
          else if (n =? 116)%N then
            match stripPrefix "rue" r with Some rest => Some (Bool true, rest) | None => None end
          else if (n =? 102)%N then
            match stripPrefix "alse" r with Some rest => Some (Bool false, rest) | None => None end
          else if (n =? 110)%N then
            match stripPrefix "ull" r with Some rest => Some (Nil, rest) | None => None end
          else
            match parseNumber (String a r) with
            | Some (lit, rest) => Some (Float64 lit, rest)
            | None => None
            end
      end
  end
with parseMembers (fuel : nat) (s : string) (m : gmap string any)
  : option (gmap string any * string) :=
  match fuel with
  | O => None
  | S fuel =>
      match skipWS s with
      | String q r =>
          if (N_of_ascii q =? 34)%N then
            match parseString (S (String.length r)) r with
            | Some (key, r1) =>
                match skipWS r1 with
                | String colon r2 =>
                    if (N_of_ascii colon =? 58)%N then
                      match parseValue fuel r2 with
                      | Some (v, r3) =>
                          match skipWS r3 with
                          | String d r4 =>
                              if (N_of_ascii d =? 44)%N then parseMembers fuel r4 (<[key := v]> m)
                              else if (N_of_ascii d =? 125)%N then Some (<[key := v]> m, r4)
                              else None
                          | "" => None
                          end
                      | None => None
                      end
                    else None
                | "" => None
                end
            | None => None
            end
          else None
      | "" => None
      end
  end
with parseElements (fuel : nat) (s : string) : option (list any * string) :=
  match fuel with
  | O => None
  | S fuel =>
      match parseValue fuel s with
      | Some (v, r1) =>
          match skipWS r1 with
          | String d r2 =>
              if (N_of_ascii d =? 44)%N then
                match parseElements fuel r2 with
                | Some (l, rest) => Some (v :: l, rest)
                | None => None
                end
              else if (N_of_ascii d =? 93)%N then Some ([v], r2)
              else None
          | "" => None
          end
      | None => None
      end
  end.

Definition typeError (kind : string) : error :=
  errorString ("json: cannot unmarshal " ++ kind
                 ++ " into Go value of type map[string]interface {}").

Definition Unmarshal (data : string) : error + RawRecord :=
  match parseValue (S (String.length data)) data with
  | Some (v, rest) =>
      if String.eqb (skipWS rest) "" then
        match v with
        | Map m => inr (Some m)
        | Nil => inr None
        | Bool _ => inl (typeError "bool")
        | Float64 _ => inl (typeError "number")
        | Str _ => inl (typeError "string")
        | Slice _ => inl (typeError "array")
        end
      else inl (errorString "json: syntax error")
  | None => inl (errorString "json: syntax error")
  end.

End RefJSON.


(** ** An executor and inputs to run the adapter on *)

(** An executor that answers each command with the next of the responses it
    was given, and fails once they are used up. *)
Definition replay (cmd : string) (responses : list (string * option error))
  : (string * option error) * list (string * option error) :=
  match responses with
  | r :: rest => (r, rest)
  | [] => (("", Some (errorString "exit status 1")), [])
  end.

Definition cmd0 : AppleContainerCommand :=
  {| Log := 1%positive; OSCommand := 2%positive; Tr := 3%positive;
     Config := 4%positive; ErrorChan := 5%positive |}.

Definition world0 : World (list (string * option error)) :=
  Build_World _ [] [].

(** The lines of the repository's tests. *)
Definition runningLine : string :=
  js "{'id':'abc123','name':'test-container','image':'nginx','state':'running'}".
Definition container1Line : string :=
  js "{'id':'abc123','name':'test-container-1','image':'nginx','state':'running'}".
Definition container2Line : string :=
  js "{'id':'def456','name':'test-container-2','image':'redis','state':'stopped'}".
Definition invalidLine : string := js "{'invalid json}".
Definition noIdentityLine : string := js "{'image':'nginx','state':'running'}".
Definition image1Line : string := js "{'id':'img123','name':'nginx','tag':'latest'}".
Definition image2Line : string := js "{'id':'img456','name':'redis','tag':'6-alpine'}".
Definition noIdImageLine : string := js "{'name':'nginx','tag':'latest'}".

Definition twoContainers : string := strings.Join [container1Line; container2Line] nl.
Definition brokenContainers : string :=
  strings.Join [container1Line; invalidLine; container2Line] nl.
Definition twoImages : string := strings.Join [image1Line; image2Line] nl.
Definition brokenImages : string := strings.Join [image1Line; invalidLine; image2Line] nl.
Definition statusDocument : string := js "{'status':'running','services':3}".

(** White space of one, two and three bytes: a space, a tab, a line feed,
    U+00A0 and U+2003. *)
Definition blankOutput : string :=
  EncodeRune 32 ++ EncodeRune 9 ++ EncodeRune 10 ++ EncodeRune 160 ++ EncodeRune 8195 ++ "".

(** What the reference decoder makes of a line (the nil map when it
    rejects it). *)
Definition decoded (line : string) : RawRecord :=
  match RefJSON.Unmarshal line with
  | inr data => data
  | inl _ => None
  end.

(** A machine on which the next command prints [output] and succeeds. *)
Definition printing (output : string) : World (list (string * option error)) :=
  Build_World _ [(output, None)] [].

Definition stoppedRecord : RawRecord :=
  Some (<["id" := Str "abc123"]> (<["name" := Str "test-container"]>
         (<["image" := Str "nginx:latest"]> (<["state" := Str "stopped"]> ∅)))).

Definition partialImageRecord : RawRecord :=
  Some (<["id" := Str "img123"]> (<["name" := Str "nginx"]> ∅)).

(** ** The vocabulary of the properties *)

(** The code points with the Unicode property White_Space, which is what
    [unicode.IsSpace] tests. *)
Definition whiteSpace : list N :=
  [9; 10; 11; 12; 13; 32; 133; 160; 5760; 8192; 8193; 8194; 8195; 8196; 8197;
   8198; 8199; 8200; 8201; 8202; 8232; 8233; 8239; 8287; 12288]%N.

(** A text that consists only of white space. *)
Inductive Blank : string -> Prop :=
  | Blank_nil : Blank ""
  | Blank_rune (r : N) (s : string) :
      In r whiteSpace -> Blank s -> Blank (EncodeRune r ++ s).

(** A line that is the text of one JSON object, from its opening to its
    closing brace, without a line feed inside. *)
Definition recordText (line : string) : bool :=
  startsWith "{"%char line && endsWith "}"%char line && negb (hasByte nl line).

(** The record has no entry under the key. *)
Definition absent (data : RawRecord) (key : string) : Prop :=
  match data with
  | Some m => m !! key = None
  | None => True
  end.

(** The record has the string [s] under the key. *)
Definition holds (data : RawRecord) (key s : string) : Prop :=
  exists m, data = Some m /\ m !! key = Some (Str s).

(** The record has a non-empty string under the key, as the mandatory
    fields of the data model must be. *)
Definition mandatory (data : RawRecord) (key : string) : Prop :=
  exists s, holds data key s /\ s <> "".

(** A line that is the text of a record the decoder accepts and that has
    its mandatory fields: id and name for a container, id for an image. *)
Definition containerLine (Unmarshal : string -> error + RawRecord) (line : string) : Prop :=
  recordText line = true /\
  exists data, Unmarshal line = inr data /\ mandatory data "id" /\ mandatory data "name".

Definition imageLine (Unmarshal : string -> error + RawRecord) (line : string) : Prop :=
  recordText line = true /\
  exists data, Unmarshal line = inr data /\ mandatory data "id".

(** The Container that [jsonToContainer] builds for an id and a name. *)
Definition containerFor (c : AppleContainerCommand) (id name : string) : Container.t :=
  {| Container.ID := id; Container.Name := name;
     Container.Image := ""; Container.State := "";
     Container.OSCommand := OSCommand c; Container.Log := Log c;
     Container.Tr := Tr c |}.

(** The Image that [jsonToImage] builds. *)
Definition imageFor (c : AppleContainerCommand) (id name tag : string) : Image.t :=
  {| Image.ID := id; Image.Name := name; Image.Tag := tag;
     Image.OSCommand := OSCommand c; Image.Log := Log c |}.

(** The entity a record yields and the entity a line contributes, apart
    from what is logged on the way: the value read off the code of
    [jsonToContainer] and of the body of the loop, to reason about a whole
    list of lines at once. *)
Definition containerOfRecord (c : AppleContainerCommand) (data : RawRecord)
  : option Container.t :=
  if String.eqb (field data "id") "" || String.eqb (field data "name") "" then None
  else Some (containerFor c (field data "id") (field data "name")).

Definition imageOfRecord (c : AppleContainerCommand) (data : RawRecord)
  : option Image.t :=
  if String.eqb (field data "id") "" then None
  else Some (imageFor c (field data "id") (field data "name") (field data "tag")).

Definition entityOfLine {A : Type} (Unmarshal : string -> error + RawRecord)
    (ofRecord : RawRecord -> option A) (line : string) : option A :=
  if String.eqb (strings.TrimSpace line) "" then None
  else match Unmarshal line with
       | inl _ => None
       | inr data => ofRecord data
       end.

Arguments jsonToContainer {OSState} c data w.
Arguments jsonToImage {OSState} c data w.
Arguments parseContainerLines {OSState} Unmarshal c lines containers w.
Arguments parseImageLines {OSState} Unmarshal c lines images w.
Arguments parseContainerList {OSState} Unmarshal c output w.
Arguments parseImageList {OSState} Unmarshal c output w.
Arguments GetContainers {OSState} RunCommandWithOutput Unmarshal c w.
Arguments GetImages {OSState} RunCommandWithOutput Unmarshal c w.
Arguments SystemStatus {OSState} RunCommandWithOutput Unmarshal c w.
Arguments Log_at {OSState} lv msg w.
Arguments os {OSState} w.
Arguments entries {OSState} w.
Arguments Build_World {OSState} os entries.

Arguments M OSState A : assert.
Arguments ret {OSState A} a w.
Arguments bind {OSState A B} m k w.

(** ** Construction and the lifecycle operations *)

Section Lifecycle.

(** [OSCommand.RunCommand] runs a command line and returns an error;
    [exec.LookPath] looks a program up on the machine and returns its path
    and an error. *)
Context {OSState : Type}.
Variable RunCommand : string -> OSState -> option error * OSState.
Variable LookPath : string -> OSState -> string * option error.

Notation "x <- m ;; k" := (bind m (fun x => k))
  (at level 100, m at next level, right associativity).
Notation "m ;; k" := (bind m (fun _ => k))
  (at level 100, right associativity).

Definition execute (cmd : string) : M OSState (option error) :=
  fun w => let (err, o) := RunCommand cmd (os w) in
           (err, {| os := o; entries := entries w |}).

(** [isAppleContainerAvailable] checks if the CLI is available. *)
Definition isAppleContainerAvailable : M OSState bool :=
  fun w => (match snd (LookPath "container" (os w)) with
            | None => true
            | Some _ => false
            end, w).

(** [NewAppleContainerCommand] creates a new command handler. *)
Definition NewAppleContainerCommand (log osCommand tr config errorChan : ptr)
  : M OSState (option AppleContainerCommand * option error) :=
  available <- isAppleContainerAvailable ;;
  if negb available then
    ret (None,
         Some (errorString
                 "Apple Container CLI not found. Please ensure 'container' command is available in PATH"))
  else
    ret (Some {| Log := log; OSCommand := osCommand; Tr := tr;
                 Config := config; ErrorChan := errorChan |}, None).

(** [BuildImage] builds a container image. *)
Definition BuildImage (c : AppleContainerCommand) (tag dockerfile : string)
  : M OSState (option error) :=
  Log_at InfoLevel
    ("Building image with tag " ++ tag ++ " using dockerfile " ++ dockerfile) ;;
  let cmd := "container build --tag " ++ tag ++ " --file " ++ dockerfile ++ " ." in
  execute cmd.

(** [RunContainer] runs a new container. *)
Definition RunContainer (c : AppleContainerCommand) (name image : string) (detached : bool)
  : M OSState (option error) :=
  Log_at InfoLevel ("Running container " ++ name ++ " from image " ++ image) ;;
  let cmd := "container run --name " ++ name in
  let cmd := if detached then cmd ++ " --detach" else cmd in
  let cmd := cmd ++ " " ++ image in
  execute cmd.

(** [StopContainer] stops a running container. *)
Definition StopContainer (c : AppleContainerCommand) (nameOrID : string)
  : M OSState (option error) :=
  Log_at InfoLevel ("Stopping container " ++ nameOrID) ;;
  let cmd := "container stop " ++ nameOrID in
  execute cmd.

(** [RemoveContainer] removes a container. *)
Definition RemoveContainer (c : AppleContainerCommand) (nameOrID : string) (force : bool)
  : M OSState (option error) :=
  Log_at InfoLevel
    ("Removing container " ++ nameOrID ++ " (force: "
       ++ (if force then "true" else "false") ++ ")") ;;
  let cmd := "container rm" in
  let cmd := if force then cmd ++ " --force" else cmd in
  let cmd := cmd ++ " " ++ nameOrID in
  execute cmd.

(** [ExecCommand] executes a command in a running container. *)
Definition ExecCommand (c : AppleContainerCommand) (nameOrID command : string)
  : M OSState (option error) :=
  Log_at InfoLevel ("Executing command in container " ++ nameOrID ++ ": " ++ command) ;;
  let cmd := "container exec " ++ nameOrID ++ " " ++ command in
  execute cmd.

(** [SystemStart] starts the system services. *)
Definition SystemStart (c : AppleContainerCommand) : M OSState (option error) :=
  Log_at InfoLevel "Starting Apple Container system services" ;;
  execute "container system start".

(** [SystemStop] stops the system services. *)
Definition SystemStop (c : AppleContainerCommand) : M OSState (option error) :=
  Log_at InfoLevel "Stopping Apple Container system services" ;;
  execute "container system stop".

End Lifecycle.

Arguments isAppleContainerAvailable {OSState} LookPath w.
Arguments NewAppleContainerCommand {OSState} LookPath log osCommand tr config errorChan w.
Arguments execute {OSState} RunCommand cmd w.
Arguments BuildImage {OSState} RunCommand c tag dockerfile w.
Arguments RunContainer {OSState} RunCommand c name image detached w.
Arguments StopContainer {OSState} RunCommand c nameOrID w.
Arguments RemoveContainer {OSState} RunCommand c nameOrID force w.
Arguments ExecCommand {OSState} RunCommand c nameOrID command w.
Arguments SystemStart {OSState} RunCommand c w.
Arguments SystemStop {OSState} RunCommand c w.

(** The operation logs [msg] at info level, runs the one command [cmd] and
    returns the error of the command as it is. *)
Definition issues {OSState : Type} (RunCommand : string -> OSState -> option error * OSState)
    (op : M OSState (option error)) (msg cmd : string) : Prop :=
  forall w,
    op w = (fst (RunCommand cmd (os w)),
            {| os := snd (RunCommand cmd (os w));
               entries := (entries w ++ [{| level := InfoLevel; message := msg |}])%list |}).

(** An executor that succeeds and keeps the list of the commands it was
    given, to see which command an operation issues. *)
Definition recording (cmd : string) (issued : list string) : option error * list string :=
  (None, (issued ++ [cmd])%list).

(** A continuation byte of UTF-8: one that does not start a rune. *)
Definition continuation (a : ascii) : bool :=
  ((128 <=? N_of_ascii a) && (N_of_ascii a <? 192))%N.

(** The lines that the loops do not skip as blank. *)
Definition nonBlank (lines : list string) : list string :=
  List.filter (fun line => negb (String.eqb (strings.TrimSpace line) "")) lines.

(** The entries of one level. *)
Definition atLevel (lv : Level) (es : list Entry) : list Entry :=
  List.filter (fun e => match level e, lv with
                        | DebugLevel, DebugLevel | InfoLevel, InfoLevel
                        | WarnLevel, WarnLevel | ErrorLevel, ErrorLevel => true
                        | _, _ => false
                        end) es.

(** The two test containers with a line of spaces and a tab between them,
    and within white space. *)
Definition spacedContainers : string :=
  strings.Join [container1Line; "  " ++ EncodeRune 9; container2Line] nl.
Definition paddedContainers : string :=
  (EncodeRune 10 ++ EncodeRune 160 ++ "") ++ twoContainers ++ (EncodeRune 13 ++ EncodeRune 10 ++ "").

(** A machine on which the next command prints [output] and fails. *)
Definition failing (output : string) (err : error) : World (list (string * option error)) :=
  Build_World [(output, Some err)] [].

(** A lookup on a machine that is the list of the programs it has. *)
Definition installed (file : string) (programs : list string) : string * option error :=
  if existsb (String.eqb file) programs then ("/usr/local/bin/" ++ file, None)
  else ("", Some (errorString "executable file not found in $PATH")).

(** Records whose id is a number, and whose name is. *)
Definition numericIdRecord : RawRecord :=
  Some (<["id" := Float64 "42"]> (<["name" := Str "test-container"]> ∅)).
Definition numericNameImage : RawRecord :=
  Some (<["id" := Str "img123"]> (<["name" := Float64 "7"]> ∅)).

(** * Properties *)

(** ** Text *)

Lemma append_nil_l (s : string) : "" ++ s = s.
Proof. reflexivity. Qed.

Lemma append_cons (a : ascii) (s t : string) : String a s ++ t = String a (s ++ t).
Proof. reflexivity. Qed.

Lemma append_nil_r (s : string) : s ++ "" = s.
Proof. induction s as [|a s IH]; [reflexivity|]. rewrite append_cons, IH. reflexivity. Qed.

Lemma append_assoc (s t u : string) : (s ++ t) ++ u = s ++ (t ++ u).
Proof.
  induction s as [|a s IH]; [reflexivity|].
  rewrite !append_cons, IH. reflexivity.
Qed.

Lemma srev_app_spec (s acc : string) : srev_app s acc = srev s ++ acc.
Proof.
  unfold srev. revert acc.
  induction s as [|a s IH]; intros acc; simpl; [reflexivity|].
  rewrite (IH (String a acc)), (IH (String a "")).
  rewrite append_assoc. reflexivity.
Qed.

Lemma srev_cons (a : ascii) (s : string) : srev (String a s) = srev s ++ String a "".
Proof. unfold srev at 1. simpl. apply srev_app_spec. Qed.

Lemma srev_append (s t : string) : srev (s ++ t) = srev t ++ srev s.
Proof.
  induction s as [|a s IH].
  - rewrite append_nil_l. symmetry. apply append_nil_r.
  - rewrite append_cons, !srev_cons, IH, append_assoc. reflexivity.
Qed.

Lemma srev_involutive (s : string) : srev (srev s) = s.
Proof.
  induction s as [|a s IH]; [reflexivity|].
  rewrite srev_cons, srev_append, IH. reflexivity.
Qed.

Lemma startsWith_inv (c : ascii) (s : string) :
  startsWith c s = true -> exists r, s = String c r.
Proof.
  destruct s as [|a r]; simpl; [discriminate|].
  intros H. apply Ascii.eqb_eq in H. subst a. eauto.
Qed.

Lemma endsWith_inv (c : ascii) (s : string) :
  endsWith c s = true -> exists r, srev s = String c r.
Proof. apply startsWith_inv. Qed.

Lemma srev_nonempty (a : ascii) (s : string) : exists x y, srev (String a s) = String x y.
Proof.
  rewrite srev_cons. destruct (srev s) as [|x y]; [exists a, ""|exists x, (y ++ String a "")];
    reflexivity.
Qed.

Lemma endsWith_append (c a : ascii) (s t : string) :
  endsWith c (s ++ String a t) = endsWith c (String a t).
Proof.
  unfold endsWith. rewrite srev_append.
  destruct (srev_nonempty a t) as (x & y & ->). reflexivity.
Qed.

Lemma startsWith_append (c a : ascii) (s t : string) :
  startsWith c (String a s ++ t) = startsWith c (String a s).
Proof. reflexivity. Qed.

(** A byte below 128 that is not white space stops the trimming, from
    either end. *)
Lemma trimRunes_ascii (fwd : bool) (a : ascii) (r : string) :
  (N_of_ascii a <? 128)%N = true -> strings.space1 a = false ->
  strings.trimRunes fwd (String a r) = String a r.
Proof.
  intros Hlt Hsp. apply N.ltb_lt in Hlt.
  assert (H2 : forall b, strings.space2 a b = false).
  { intros b. unfold strings.space2.
    replace (N_of_ascii a =? 194)%N with false; [reflexivity|].
    symmetry. apply N.eqb_neq. lia. }
  assert (H2' : forall b, strings.space2 b a = false).
  { intros b. unfold strings.space2.
    replace (N_of_ascii a =? 133)%N with false by (symmetry; apply N.eqb_neq; lia).
    replace (N_of_ascii a =? 160)%N with false by (symmetry; apply N.eqb_neq; lia).
    apply andb_false_r. }
  assert (H3 : forall b c, strings.space3 a b c = false).
  { intros b c. unfold strings.space3.
    replace (N_of_ascii a =? 225)%N with false by (symmetry; apply N.eqb_neq; lia).
    replace (N_of_ascii a =? 226)%N with false by (symmetry; apply N.eqb_neq; lia).
    replace (N_of_ascii a =? 227)%N with false by (symmetry; apply N.eqb_neq; lia).
    reflexivity. }
  assert (H3' : forall b c, strings.space3 c b a = false).
  { intros b c. unfold strings.space3.
    replace (N_of_ascii a =? 128)%N with false by (symmetry; apply N.eqb_neq; lia).
    replace (N_of_ascii a =? 159)%N with false by (symmetry; apply N.eqb_neq; lia).
    replace (N_of_ascii a =? 168)%N with false by (symmetry; apply N.eqb_neq; lia).
    replace (N_of_ascii a =? 169)%N with false by (symmetry; apply N.eqb_neq; lia).
    replace (N_of_ascii a =? 175)%N with false by (symmetry; apply N.eqb_neq; lia).
    replace (128 <=? N_of_ascii a)%N with false by (symmetry; apply N.leb_gt; lia).
    rewrite !andb_false_r. reflexivity. }
  simpl. rewrite Hsp.
  destruct r as [|b [|c r]]; [reflexivity| |].
  - destruct fwd; [rewrite H2|rewrite H2']; reflexivity.
  - destruct fwd; [rewrite H2, H3|rewrite H2', H3']; reflexivity.
Qed.

(** A text between braces has no white space to trim. *)
Lemma TrimSpace_braces (s : string) :
  startsWith "{"%char s = true -> endsWith "}"%char s = true ->
  strings.TrimSpace s = s.
Proof.
  intros Hs He.
  destruct (startsWith_inv _ _ Hs) as [r ->].
  destruct (endsWith_inv _ _ He) as [r' Hr'].
  unfold strings.TrimSpace, strings.TrimLeftSpace, strings.TrimRightSpace.
  rewrite trimRunes_ascii by reflexivity.
  rewrite Hr', trimRunes_ascii by reflexivity.
  rewrite <- Hr'. apply srev_involutive.
Qed.

Lemma Split_append (sep : ascii) (s t : string) :
  hasByte sep s = false ->
  strings.Split (s ++ String sep t) sep = s :: strings.Split t sep.
Proof.
  induction s as [|a s IH]; intros H.
  - rewrite append_nil_l. simpl. rewrite Ascii.eqb_refl. reflexivity.
  - simpl in H. apply orb_false_elim in H as [Ha Hs].
    rewrite append_cons. simpl. rewrite Ha, (IH Hs). reflexivity.
Qed.

Lemma Split_line (sep : ascii) (s : string) :
  hasByte sep s = false -> strings.Split s sep = [s].
Proof.
  induction s as [|a s IH]; intros H; [reflexivity|].
  simpl in H. apply orb_false_elim in H as [Ha Hs].
  simpl. rewrite Ha, (IH Hs). reflexivity.
Qed.

Lemma Join_cons (sep : ascii) (e e' : string) (rest : list string) :
  strings.Join (e :: e' :: rest) sep = e ++ String sep (strings.Join (e' :: rest) sep).
Proof. reflexivity. Qed.

(** Splitting what was joined gives the lines back. *)
Lemma Split_Join (sep : ascii) (lines : list string) :
  lines <> [] -> Forall (fun l => hasByte sep l = false) lines ->
  strings.Split (strings.Join lines sep) sep = lines.
Proof.
  induction lines as [|e rest IH]; intros Hne Hall; [congruence|].
  inversion Hall as [|? ? He Hrest]; subst.
  destruct rest as [|e' rest].
  - simpl. apply Split_line, He.
  - rewrite Join_cons, Split_append by exact He.
    rewrite IH; [reflexivity|congruence|exact Hrest].
Qed.

Lemma recordText_inv (line : string) :
  recordText line = true ->
  startsWith "{"%char line = true /\ endsWith "}"%char line = true
  /\ hasByte nl line = false.
Proof.
  unfold recordText. intros H.
  apply andb_prop in H as [H H3]. apply andb_prop in H as [H1 H2].
  apply negb_true_iff in H3. auto.
Qed.

Lemma Join_startsWith (c : ascii) (line : string) (rest : list string) :
  startsWith c line = true -> startsWith c (strings.Join (line :: rest) nl) = true.
Proof.
  intros H. destruct (startsWith_inv _ _ H) as [r ->].
  destruct rest; [exact H|]. rewrite Join_cons. exact H.
Qed.

Lemma Join_endsWith (c : ascii) (init : list string) (line : string) :
  endsWith c line = true -> endsWith c (strings.Join (init ++ [line]) nl) = true.
Proof.
  intros H. induction init as [|e init IH]; [exact H|].
  change ((e :: init) ++ [line])%list with (e :: (init ++ [line]))%list.
  destruct (init ++ [line])%list as [|e' rest] eqn:E.
  { destruct init; discriminate E. }
  rewrite Join_cons.
  destruct (strings.Join (e' :: rest) nl) as [|a t] eqn:EJ; [discriminate IH|].
  rewrite (endsWith_append _ nl e (String a t)).
  change (String nl (String a t)) with (String nl "" ++ String a t).
  rewrite endsWith_append. exact IH.
Qed.

(** Lines without a line feed, of which the first opens with a brace and
    the last closes with one: joined, they are trimmed and split into
    themselves. *)
Lemma Join_bounded (first last : string) (init rest : list string) :
  let lines := (first :: rest)%list in
  lines = (init ++ [last])%list ->
  startsWith "{"%char first = true -> endsWith "}"%char last = true ->
  Forall (fun l => hasByte nl l = false) lines ->
  strings.TrimSpace (strings.Join lines nl) = strings.Join lines nl
  /\ strings.Split (strings.Join lines nl) nl = lines
  /\ strings.Join lines nl <> "".
Proof.
  intros lines Hlast Hs He Hall.
  assert (Hs' : startsWith "{"%char (strings.Join lines nl) = true)
    by (apply Join_startsWith, Hs).
  split; [|split].
  - apply TrimSpace_braces; [exact Hs'|]. rewrite Hlast. apply Join_endsWith, He.
  - apply Split_Join; [discriminate|exact Hall].
  - intros E. rewrite E in Hs'. discriminate.
Qed.

Lemma last_line {A : Type} (x : A) (l : list A) :
  exists init last, (x :: l)%list = (init ++ [last])%list /\ List.In last (x :: l).
Proof.
  revert x. induction l as [|y l IH]; intros x.
  - exists [], x. split; [reflexivity|left; reflexivity].
  - destruct (IH y) as (init & last & E & Hin).
    exists (x :: init)%list, last. split; [simpl; rewrite E; reflexivity|right; exact Hin].
Qed.

(** The lines of records, joined, are trimmed and split into themselves. *)
Lemma Join_records (lines : list string) :
  lines <> [] -> Forall (fun l => recordText l = true) lines ->
  strings.TrimSpace (strings.Join lines nl) = strings.Join lines nl
  /\ strings.Split (strings.Join lines nl) nl = lines
  /\ strings.Join lines nl <> "".
Proof.
  intros Hne Hall. destruct lines as [|first rest]; [congruence|].
  destruct (last_line first rest) as (init & last & E & Hin).
  rewrite List.Forall_forall in Hall.
  apply (Join_bounded first last init rest E).
  - apply recordText_inv, Hall. left. reflexivity.
  - apply recordText_inv, Hall, Hin.
  - apply List.Forall_forall. intros l Hl. apply recordText_inv, Hall, Hl.
Qed.

Lemma trimRunes_space (r : N) (s : string) :
  In r whiteSpace -> strings.trimRunes true (EncodeRune r ++ s) = strings.trimRunes true s.
Proof.
  intros H. simpl in H.
  repeat (destruct H as [<-|H]; [reflexivity|]). contradiction.
Qed.

(** A text of white space only is trimmed to nothing. *)
Lemma TrimSpace_Blank (s : string) : Blank s -> strings.TrimSpace s = "".
Proof.
  intros H. unfold strings.TrimSpace.
  assert (E : strings.TrimLeftSpace s = "").
  { unfold strings.TrimLeftSpace. induction H as [|r s Hr _ IH]; [reflexivity|].
    rewrite trimRunes_space; assumption. }
  rewrite E. reflexivity.
Qed.

(** *** White space, exactly *)

Lemma length_append (s t : string) :
  String.length (s ++ t) = String.length s + String.length t.
Proof.
  induction s as [|a s IH]; [reflexivity|].
  rewrite append_cons. simpl. rewrite IH. reflexivity.
Qed.

Lemma srev_empty (s : string) : srev s = "" -> s = "".
Proof. intros H. rewrite <- (srev_involutive s), H. reflexivity. Qed.

Lemma byte_code (a : ascii) (n : N) : N_of_ascii a = n -> a = byte n.
Proof. intros <-. symmetry. apply ascii_N_embedding. Qed.

Local Ltac codes H :=
  unfold strings.space1, strings.space2, strings.space3 in H;
  repeat rewrite ?andb_true_iff, ?orb_true_iff, ?N.eqb_eq, ?N.leb_le in H.

Local Ltac rune r := exists r; split; [simpl; tauto|reflexivity].

(** The three tests of the trimming are the encodings of the white space
    code points, and nothing else. *)
Lemma space1_rune (a : ascii) :
  strings.space1 a = true -> exists r, In r whiteSpace /\ String a "" = EncodeRune r.
Proof.
  intros H. codes H.
  assert (E : (N_of_ascii a = 9 \/ N_of_ascii a = 10 \/ N_of_ascii a = 11
               \/ N_of_ascii a = 12 \/ N_of_ascii a = 13 \/ N_of_ascii a = 32)%N) by lia.
  clear H.
  repeat (destruct E as [E|E]); apply byte_code in E; subst a;
    [rune 9%N|rune 10%N|rune 11%N|rune 12%N|rune 13%N|rune 32%N].
Qed.

Lemma space2_rune (a b : ascii) :
  strings.space2 a b = true ->
  exists r, In r whiteSpace /\ String a (String b "") = EncodeRune r.
Proof.
  intros H. codes H. destruct H as [Ha Hb]. apply byte_code in Ha. subst a.
  destruct Hb as [Hb|Hb]; apply byte_code in Hb; subst b; [rune 133%N|rune 160%N].
Qed.

Lemma space3_rune (a b c : ascii) :
  strings.space3 a b c = true ->
  exists r, In r whiteSpace /\ String a (String b (String c "")) = EncodeRune r.
Proof.
  intros H. codes H.
  destruct H as [[[[[Ha Hb] Hc]|[[Ha Hb] Hc]]|[[Ha Hb] Hc]]|[[Ha Hb] Hc]];
    apply byte_code in Ha, Hb; subst a b.
  - apply byte_code in Hc. subst c. rune 5760%N.
  - assert (E : (N_of_ascii c = 128 \/ N_of_ascii c = 129 \/ N_of_ascii c = 130
                 \/ N_of_ascii c = 131 \/ N_of_ascii c = 132 \/ N_of_ascii c = 133
                 \/ N_of_ascii c = 134 \/ N_of_ascii c = 135 \/ N_of_ascii c = 136
                 \/ N_of_ascii c = 137 \/ N_of_ascii c = 138 \/ N_of_ascii c = 168
                 \/ N_of_ascii c = 169 \/ N_of_ascii c = 175)%N) by lia.
    clear Hc.
    repeat (destruct E as [E|E]); apply byte_code in E; subst c;
      [rune 8192%N|rune 8193%N|rune 8194%N|rune 8195%N|rune 8196%N|rune 8197%N
      |rune 8198%N|rune 8199%N|rune 8200%N|rune 8201%N|rune 8202%N|rune 8232%N
      |rune 8233%N|rune 8239%N].
  - apply byte_code in Hc. subst c. rune 8287%N.
  - apply byte_code in Hc. subst c. rune 12288%N.
Qed.

Lemma EncodeRune_length (r : N) : 1 <= String.length (EncodeRune r).
Proof.
  unfold EncodeRune.
  destruct (r <? 128)%N, (r <? 2048)%N, (r <? 65536)%N; simpl; lia.
Qed.

Lemma Blank_snoc (s : string) (r : N) :
  Blank s -> In r whiteSpace -> Blank (s ++ EncodeRune r).
Proof.
  intros H Hr. induction H as [|r' s Hr' _ IH].
  - rewrite append_nil_l, <- (append_nil_r (EncodeRune r)).
    apply Blank_rune; [exact Hr|apply Blank_nil].
  - rewrite append_assoc. apply Blank_rune; assumption.
Qed.

Lemma trimRunes_length (fwd : bool) (n : nat) : forall s,
  String.length s <= n -> String.length (strings.trimRunes fwd s) <= String.length s.
Proof.
  induction n as [|n IH]; intros s Hn.
  - destruct s; [simpl; lia|simpl in Hn; lia].
  - destruct s as [|a [|b [|c r3]]]; simpl in *; [lia|..].
    + destruct (strings.space1 a); simpl; lia.
    + destruct (strings.space1 a).
      * assert (H := IH (String b "") ltac:(simpl; lia)). simpl in H. lia.
      * destruct (if fwd then _ else _); simpl; lia.
    + destruct (strings.space1 a).
      * assert (H := IH (String b (String c r3)) ltac:(simpl; lia)). simpl in H. lia.
      * destruct (if fwd then strings.space2 a b else _).
        -- assert (H := IH (String c r3) ltac:(simpl; lia)). simpl in H. lia.
        -- destruct (if fwd then _ else _); [|simpl; lia].
           assert (H := IH r3 ltac:(lia)). lia.
Qed.

(** What is left of the trimming does not start with white space. *)
Lemma trimRunes_idempotent (fwd : bool) (n : nat) : forall s,
  String.length s <= n ->
  strings.trimRunes fwd (strings.trimRunes fwd s) = strings.trimRunes fwd s.
Proof.
  induction n as [|n IH]; intros s Hn.
  - destruct s; [reflexivity|simpl in Hn; lia].
  - destruct s as [|a r1]; [reflexivity|]. simpl in Hn.
    destruct (strings.space1 a) eqn:E1.
    { simpl. rewrite E1. apply IH. lia. }
    destruct r1 as [|b r2].
    { simpl. rewrite E1. simpl. rewrite E1. reflexivity. }
    destruct (if fwd then strings.space2 a b else strings.space2 b a) eqn:E2.
    { simpl. rewrite E1, E2. apply IH. simpl in Hn. lia. }
    destruct r2 as [|c r3].
    { simpl. rewrite E1, E2. simpl. rewrite E1, E2. reflexivity. }
    destruct (if fwd then strings.space3 a b c else strings.space3 c b a) eqn:E3.
    { simpl. rewrite E1, E2, E3. apply IH. simpl in Hn. lia. }
    simpl. rewrite E1, E2, E3. simpl. rewrite E1, E2, E3. reflexivity.
Qed.

Lemma trimRunes_empty (n : nat) : forall s,
  String.length s <= n -> strings.trimRunes true s = "" -> Blank s.
Proof.
  induction n as [|n IH]; intros s Hn H.
  - destruct s; [apply Blank_nil|simpl in Hn; lia].
  - destruct s as [|a r1]; [apply Blank_nil|]. simpl in Hn, H.
    destruct (strings.space1 a) eqn:E1.
    { destruct (space1_rune a E1) as (r & Hr & E).
      change (String a r1) with (String a "" ++ r1). rewrite E.
      apply Blank_rune; [exact Hr|apply IH; [lia|exact H]]. }
    destruct r1 as [|b r2]; [discriminate|].
    destruct (strings.space2 a b) eqn:E2.
    { destruct (space2_rune a b E2) as (r & Hr & E).
      change (String a (String b r2)) with (String a (String b "") ++ r2). rewrite E.
      apply Blank_rune; [exact Hr|apply IH; [simpl in Hn; lia|exact H]]. }
    destruct r2 as [|c r3]; [discriminate|].
    destruct (strings.space3 a b c) eqn:E3; [|discriminate].
    destruct (space3_rune a b c E3) as (r & Hr & E).
    change (String a (String b (String c r3)))
      with (String a (String b (String c "")) ++ r3).
    rewrite E. apply Blank_rune; [exact Hr|apply IH; [simpl in Hn; lia|exact H]].
Qed.

Lemma trimRunes_rev_empty (n : nat) : forall s,
  String.length s <= n -> strings.trimRunes false s = "" -> Blank (srev s).
Proof.
  induction n as [|n IH]; intros s Hn H.
  - destruct s; [apply Blank_nil|simpl in Hn; lia].
  - destruct s as [|a r1]; [apply Blank_nil|]. simpl in Hn, H.
    destruct (strings.space1 a) eqn:E1.
    { destruct (space1_rune a E1) as (r & Hr & E).
      rewrite srev_cons, E. apply Blank_snoc; [apply IH; [lia|exact H]|exact Hr]. }
    destruct r1 as [|b r2]; [discriminate|].
    destruct (strings.space2 b a) eqn:E2.
    { destruct (space2_rune b a E2) as (r & Hr & E).
      rewrite !srev_cons, append_assoc.
      change (String b "" ++ String a "") with (String b (String a "")). rewrite E.
      apply Blank_snoc; [apply IH; [simpl in Hn; lia|exact H]|exact Hr]. }
    destruct r2 as [|c r3]; [discriminate|].
    destruct (strings.space3 c b a) eqn:E3; [|discriminate].
    destruct (space3_rune c b a E3) as (r & Hr & E).
    rewrite !srev_cons, !append_assoc.
    change (String c "" ++ String b "" ++ String a "")
      with (String c (String b (String a ""))).
    rewrite E. apply Blank_snoc; [apply IH; [simpl in Hn; lia|exact H]|exact Hr].
Qed.

(** [strings.TrimSpace] leaves nothing exactly of the texts that are white
    space only. *)
Lemma TrimSpace_empty_iff (s : string) : strings.TrimSpace s = "" <-> Blank s.
Proof.
  split; [|apply TrimSpace_Blank].
  unfold strings.TrimSpace, strings.TrimRightSpace, strings.TrimLeftSpace.
  intros H. apply srev_empty in H.
  apply (trimRunes_rev_empty _ _ (le_n _)) in H. rewrite srev_involutive in H.
  assert (Hfix := trimRunes_idempotent true _ s (le_n _)).
  remember (strings.trimRunes true s) as rest eqn:E.
  destruct H as [|r t Hr Ht].
  - eapply trimRunes_empty; [apply le_n|congruence].
  - exfalso. rewrite trimRunes_space in Hfix by exact Hr.
    assert (L := trimRunes_length true _ t (le_n _)).
    rewrite Hfix, length_append in L.
    assert (L' := EncodeRune_length r). lia.
Qed.

(** ** The field mappers *)

Section Mappers.

Context {OSState : Type}.
Implicit Types (c : AppleContainerCommand) (data : RawRecord) (w : World OSState).

(** What [jsonToContainer] returns and what it logs. *)
Lemma jsonToContainer_eq c data w :
  jsonToContainer c data w =
    match containerOfRecord c data with
    | None =>
        (None, {| os := os w;
                  entries := logged WarnLevel
                    "Container missing required fields (id or name)" (entries w) |})
    | Some ctr =>
        (Some ctr,
         {| os := os w;
            entries := logged DebugLevel
              ("Parsed container: ID=" ++ field data "id" ++ ", Name=" ++ field data "name"
                 ++ ", Image=" ++ field data "image" ++ ", State=" ++ field data "state"
                 ++ "->" ++ mapState (field data "state")) (entries w) |})
    end.
Proof.
  unfold jsonToContainer, containerOfRecord.
  destruct (String.eqb (field data "id") "" || String.eqb (field data "name") "");
    reflexivity.
Qed.

Lemma jsonToImage_eq c data w :
  jsonToImage c data w =
    match imageOfRecord c data with
    | None =>
        (None, {| os := os w;
                  entries := logged WarnLevel "Image missing required ID field" (entries w) |})
    | Some img =>
        (Some img,
         {| os := os w;
            entries := logged DebugLevel
              ("Parsed image: ID=" ++ field data "id" ++ ", Name=" ++ field data "name"
                 ++ ", Tag=" ++ field data "tag") (entries w) |})
    end.
Proof.
  unfold jsonToImage, imageOfRecord.
  destruct (String.eqb (field data "id") ""); reflexivity.
Qed.

Lemma field_absent data key : absent data key -> field data key = "".
Proof.
  unfold absent, field, index. destruct data as [m|]; [|reflexivity].
  intros ->. reflexivity.
Qed.

Lemma field_holds data key s : holds data key s -> field data key = s.
Proof.
  intros (m & -> & H). unfold field, index. rewrite H. reflexivity.
Qed.

Lemma containerOfRecord_Some c data :
  field data "id" <> "" -> field data "name" <> "" ->
  containerOfRecord c data = Some (containerFor c (field data "id") (field data "name")).
Proof.
  intros Hid Hname. unfold containerOfRecord.
  apply String.eqb_neq in Hid, Hname. rewrite Hid, Hname. reflexivity.
Qed.


Lemma imageOfRecord_Some c data :
  field data "id" <> "" ->
  imageOfRecord c data
  = Some (imageFor c (field data "id") (field data "name") (field data "tag")).
Proof.
  intros Hid. unfold imageOfRecord. apply String.eqb_neq in Hid. rewrite Hid. reflexivity.
Qed.


End Mappers.

(** ** The loops over the lines *)

Local Close Scope string_scope.

Section Lines.

Context {OSState : Type} (Unmarshal : string -> error + RawRecord).
Implicit Types (c : AppleContainerCommand) (w : World OSState) (lines : list string).

(** The loop appends, in the order of the lines, the entity of each line
    that has one; it leaves the machine alone. *)
Lemma parseContainerLines_fst c lines : forall containers w,
  fst (parseContainerLines Unmarshal c lines containers w)
  = (containers ++ omap (entityOfLine Unmarshal (containerOfRecord c)) lines).
Proof.
  induction lines as [|line rest IH]; intros containers w; simpl.
  - rewrite app_nil_r. reflexivity.
  - unfold entityOfLine at 1.
    destruct (String.eqb (strings.TrimSpace line) ""); [apply IH|].
    destruct (Unmarshal line) as [err|data]; unfold bind.
    + simpl. apply IH.
    + rewrite jsonToContainer_eq.
      destruct (containerOfRecord c data) as [ctr|]; rewrite IH; [|reflexivity].
      rewrite <- app_assoc. reflexivity.
Qed.

Lemma parseImageLines_fst c lines : forall images w,
  fst (parseImageLines Unmarshal c lines images w)
  = (images ++ omap (entityOfLine Unmarshal (imageOfRecord c)) lines).
Proof.
  induction lines as [|line rest IH]; intros images w; simpl.
  - rewrite app_nil_r. reflexivity.
  - unfold entityOfLine at 1.
    destruct (String.eqb (strings.TrimSpace line) ""); [apply IH|].
    destruct (Unmarshal line) as [err|data]; unfold bind.
    + simpl. apply IH.
    + rewrite jsonToImage_eq.
      destruct (imageOfRecord c data) as [img|]; rewrite IH; [|reflexivity].
      rewrite <- app_assoc. reflexivity.
Qed.

Lemma parseContainerLines_os c lines : forall containers w,
  os (snd (parseContainerLines Unmarshal c lines containers w)) = os w.
Proof.
  induction lines as [|line rest IH]; intros containers w; simpl; [reflexivity|].
  destruct (String.eqb (strings.TrimSpace line) ""); [apply IH|].
  destruct (Unmarshal line) as [err|data]; unfold bind.
  - simpl. rewrite IH. reflexivity.
  - rewrite jsonToContainer_eq.
    destruct (containerOfRecord c data); rewrite IH; reflexivity.
Qed.

Lemma parseImageLines_os c lines : forall images w,
  os (snd (parseImageLines Unmarshal c lines images w)) = os w.
Proof.
  induction lines as [|line rest IH]; intros images w; simpl; [reflexivity|].
  destruct (String.eqb (strings.TrimSpace line) ""); [apply IH|].
  destruct (Unmarshal line) as [err|data]; unfold bind.
  - simpl. rewrite IH. reflexivity.
  - rewrite jsonToImage_eq.
    destruct (imageOfRecord c data); rewrite IH; reflexivity.
Qed.

(** A line that is not blank and fails to decode costs a warning, with
    the line and the reason, and nothing else. *)
Lemma parseContainerLines_malformed c (line : string) lines (e : error) :
  forall containers w,
  String.eqb (strings.TrimSpace line) "" = false -> Unmarshal line = inl e ->
  parseContainerLines Unmarshal c (line :: lines) containers w
  = parseContainerLines Unmarshal c lines containers
      {| os := os w;
         entries := logged WarnLevel
           ("Failed to parse container JSON line: " +:+ line +:+ " error: " +:+ Error e)
           (entries w) |}.
Proof. intros containers w Hb He. simpl. rewrite Hb, He. reflexivity. Qed.

Lemma parseImageLines_malformed c (line : string) lines (e : error) :
  forall images w,
  String.eqb (strings.TrimSpace line) "" = false -> Unmarshal line = inl e ->
  parseImageLines Unmarshal c (line :: lines) images w
  = parseImageLines Unmarshal c lines images
      {| os := os w;
         entries := logged WarnLevel
           ("Failed to parse image JSON line: " +:+ line +:+ " error: " +:+ Error e)
           (entries w) |}.
Proof. intros images w Hb He. simpl. rewrite Hb, He. reflexivity. Qed.

(** The two parsers, as values. *)
Lemma parseContainerList_fst c output w :
  fst (parseContainerList Unmarshal c output w)
  = (if String.eqb (strings.TrimSpace output) "" then []
     else omap (entityOfLine Unmarshal (containerOfRecord c))
            (strings.Split (strings.TrimSpace output) nl),
     None).
Proof.
  unfold parseContainerList.
  destruct (String.eqb (strings.TrimSpace output) ""); [reflexivity|].
  unfold bind, ret.
  pose proof (parseContainerLines_fst c (strings.Split (strings.TrimSpace output) nl) [] w) as H.
  destruct (parseContainerLines _ _ _ _ _) as [containers w']. simpl in *.
  rewrite H. reflexivity.
Qed.

Lemma parseImageList_fst c output w :
  fst (parseImageList Unmarshal c output w)
  = (if String.eqb (strings.TrimSpace output) "" then []
     else omap (entityOfLine Unmarshal (imageOfRecord c))
            (strings.Split (strings.TrimSpace output) nl),
     None).
Proof.
  unfold parseImageList.
  destruct (String.eqb (strings.TrimSpace output) ""); [reflexivity|].
  unfold bind, ret.
  pose proof (parseImageLines_fst c (strings.Split (strings.TrimSpace output) nl) [] w) as H.
  destruct (parseImageLines _ _ _ _ _) as [images w']. simpl in *.
  rewrite H. reflexivity.
Qed.

(** When the trimmed output is empty it splits into one empty line, which
    the loop skips: the early return and the loop agree. *)
Lemma lines_of_blank {A : Type} (ofRecord : RawRecord -> option A) (output : string) :
  String.eqb (strings.TrimSpace output) "" = true ->
  omap (entityOfLine Unmarshal ofRecord) (strings.Split (strings.TrimSpace output) nl) = [].
Proof.
  intros H. apply String.eqb_eq in H. rewrite H. reflexivity.
Qed.

Lemma parseContainerList_lines c output w w' :
  fst (parseContainerList Unmarshal c output w)
  = (fst (parseContainerLines Unmarshal c
            (strings.Split (strings.TrimSpace output) nl) [] w'), None).
Proof.
  rewrite parseContainerList_fst, parseContainerLines_fst. simpl.
  destruct (String.eqb (strings.TrimSpace output) "") eqn:E; [|reflexivity].
  rewrite lines_of_blank by exact E. reflexivity.
Qed.

Lemma parseImageList_lines c output w w' :
  fst (parseImageList Unmarshal c output w)
  = (fst (parseImageLines Unmarshal c
            (strings.Split (strings.TrimSpace output) nl) [] w'), None).
Proof.
  rewrite parseImageList_fst, parseImageLines_fst. simpl.
  destruct (String.eqb (strings.TrimSpace output) "") eqn:E; [|reflexivity].
  rewrite lines_of_blank by exact E. reflexivity.
Qed.

(** A line without an entity can be taken out of the lines. *)
Lemma omap_skip {A : Type} (f : string -> option A) (ls1 ls2 : list string) (line : string) :
  f line = None -> omap f (ls1 ++ line :: ls2) = (omap f ls1 ++ omap f ls2).
Proof. intros H. rewrite omap_app. simpl. rewrite H. reflexivity. Qed.

Lemma entityOfLine_malformed {A : Type} (ofRecord : RawRecord -> option A)
    (line : string) (e : error) :
  Unmarshal line = inl e -> entityOfLine Unmarshal ofRecord line = None.
Proof.
  intros H. unfold entityOfLine. rewrite H.
  destruct (String.eqb (strings.TrimSpace line) ""); reflexivity.
Qed.


Lemma entityOfLine_recordText {A : Type} (ofRecord : RawRecord -> option A)
    (line : string) (data : RawRecord) :
  recordText line = true -> Unmarshal line = inr data ->
  entityOfLine Unmarshal ofRecord line = ofRecord data.
Proof.
  intros Ht H. unfold entityOfLine. rewrite H.
  apply recordText_inv in Ht as (Hs & He & _).
  rewrite TrimSpace_braces by assumption.
  destruct (startsWith_inv _ _ Hs) as [r ->]. reflexivity.
Qed.

(** X16. On the text itself: among the lines of records, a line that fails
    to decode can be taken out of the output without changing what is
    parsed. *)
Lemma malformed_line_between_records c (lines1 lines2 : list string) (bad : string)
    (e : error) w w' :
  lines1 <> [] -> lines2 <> [] ->
  Forall (fun l => recordText l = true) lines1 ->
  Forall (fun l => recordText l = true) lines2 ->
  hasByte nl bad = false -> Unmarshal bad = inl e ->
  fst (parseContainerList Unmarshal c (strings.Join (lines1 ++ bad :: lines2) nl) w)
  = fst (parseContainerList Unmarshal c (strings.Join (lines1 ++ lines2) nl) w')
  /\ fst (parseImageList Unmarshal c (strings.Join (lines1 ++ bad :: lines2) nl) w)
     = fst (parseImageList Unmarshal c (strings.Join (lines1 ++ lines2) nl) w').
Proof.
  intros Hne1 Hne2 Hall1 Hall2 Hnl Hbad.
  destruct lines1 as [|first rest1]; [congruence|].
  destruct lines2 as [|l2 rest2]; [congruence|].
  destruct (last_line l2 rest2) as (init2 & last & E2 & Hin2).
  rewrite List.Forall_forall in Hall1, Hall2.
  assert (Hfirst := proj1 (recordText_inv _ (Hall1 first ltac:(left; reflexivity)))).
  assert (Hlast := proj1 (proj2 (recordText_inv _ (Hall2 last Hin2)))).
  assert (Hnl1 : Forall (fun l => hasByte nl l = false) (first :: rest1)).
  { apply List.Forall_forall. intros l Hl. apply recordText_inv, Hall1, Hl. }
  assert (Hnl2 : Forall (fun l => hasByte nl l = false) (l2 :: rest2)).
  { apply List.Forall_forall. intros l Hl. apply recordText_inv, Hall2, Hl. }
  destruct (Join_bounded first last ((first :: rest1) ++ bad :: init2)
              (rest1 ++ bad :: l2 :: rest2)) as (Ht & Hs & Hn); try assumption.
  { simpl. rewrite E2, <- app_assoc. reflexivity. }
  { change (Forall (fun l => hasByte nl l = false) ((first :: rest1) ++ bad :: l2 :: rest2)).
    apply Forall_app. split; [exact Hnl1|]. constructor; assumption. }
  destruct (Join_bounded first last ((first :: rest1) ++ init2)
              (rest1 ++ l2 :: rest2)) as (Ht' & Hs' & Hn'); try assumption.
  { simpl. rewrite E2, <- app_assoc. reflexivity. }
  { change (Forall (fun l => hasByte nl l = false) ((first :: rest1) ++ l2 :: rest2)).
    apply Forall_app. split; assumption. }
  cbv zeta in Ht, Hs, Hn, Ht', Hs', Hn'. apply String.eqb_neq in Hn, Hn'.
  rewrite !parseContainerList_fst, !parseImageList_fst.
  change ((first :: rest1) ++ bad :: l2 :: rest2)
    with (first :: (rest1 ++ bad :: l2 :: rest2)).
  change ((first :: rest1) ++ l2 :: rest2) with (first :: (rest1 ++ l2 :: rest2)).
  rewrite Ht, Hs, Hn, Ht', Hs', Hn'.
  change (first :: (rest1 ++ bad :: l2 :: rest2))
    with ((first :: rest1) ++ bad :: l2 :: rest2).
  change (first :: (rest1 ++ l2 :: rest2)) with ((first :: rest1) ++ l2 :: rest2).
  split; rewrite omap_skip by (eapply entityOfLine_malformed; eassumption);
    rewrite omap_app; reflexivity.
Qed.

End Lines.

(** ** The claims *)

Section Claims.

Context {OSState : Type}.
Context (RunCommandWithOutput : string -> OSState -> (string * option error) * OSState).
Context (Unmarshal : string -> error + RawRecord).
Implicit Types (c : AppleContainerCommand) (w : World OSState) (data : RawRecord).

Lemma mandatory_field data key : mandatory data key -> field data key <> "".
Proof. intros (s & H & Hs). rewrite (field_holds _ _ _ H). exact Hs. Qed.

(** C1, as the code has it. A line that the decoder rejects is dropped:
    whatever the input, if the lines the parser iterates over (the trimmed
    output, split at line feeds) are [ls1], then a line [bad] that fails to
    decode, then [ls2], the parser returns no error and exactly the
    entities of [ls1] followed by those of [ls2], which is also what it
    returns on any input whose lines are [ls1] followed by [ls2].  The
    comparison is between lists of lines, not between texts: a text without
    its first or last line is trimmed differently. *)
Theorem malformed_line_dropped c (output output' : string)
    (ls1 ls2 : list string) (bad : string) (e : error) w w' :
  strings.Split (strings.TrimSpace output) nl = (ls1 ++ bad :: ls2) ->
  Unmarshal bad = inl e ->
  (fst (parseContainerList Unmarshal c output w)
   = ((fst (parseContainerLines Unmarshal c ls1 [] w')
       ++ fst (parseContainerLines Unmarshal c ls2 [] w')), None)
   /\ fst (parseImageList Unmarshal c output w)
      = ((fst (parseImageLines Unmarshal c ls1 [] w')
          ++ fst (parseImageLines Unmarshal c ls2 [] w')), None))
  /\ (strings.Split (strings.TrimSpace output') nl = (ls1 ++ ls2) ->
      fst (parseContainerList Unmarshal c output w)
      = fst (parseContainerList Unmarshal c output' w')
      /\ fst (parseImageList Unmarshal c output w)
         = fst (parseImageList Unmarshal c output' w')).
Proof.
  intros Hlines Hbad.
  assert (Hc : fst (parseContainerList Unmarshal c output w)
               = (omap (entityOfLine Unmarshal (containerOfRecord c)) (ls1 ++ ls2), None)).
  { rewrite (parseContainerList_lines _ _ _ _ w'), parseContainerLines_fst, Hlines.
    rewrite omap_skip by (eapply entityOfLine_malformed; eassumption).
    rewrite omap_app. reflexivity. }
  assert (Hi : fst (parseImageList Unmarshal c output w)
               = (omap (entityOfLine Unmarshal (imageOfRecord c)) (ls1 ++ ls2), None)).
  { rewrite (parseImageList_lines _ _ _ _ w'), parseImageLines_fst, Hlines.
    rewrite omap_skip by (eapply entityOfLine_malformed; eassumption).
    rewrite omap_app. reflexivity. }
  split; [split|].
  - rewrite Hc, !parseContainerLines_fst, omap_app. reflexivity.
  - rewrite Hi, !parseImageLines_fst, omap_app. reflexivity.
  - intros Hlines'. split.
    + rewrite Hc, (parseContainerList_lines _ _ output' _ w'), parseContainerLines_fst, Hlines'.
      reflexivity.
    + rewrite Hi, (parseImageList_lines _ _ output' _ w'), parseImageLines_fst, Hlines'.
      reflexivity.
Qed.


(** C3, as the code has it. For every line that is the text of a record
    the decoder accepts, with its mandatory fields (id and name for a
    container, id for an image) holding non-empty strings, the list parser
    returns no error and exactly one entity: a Container with the id and the
    name of the record and with Image and State empty, whatever the record
    says about them; an Image with the id of the record and, as Name and
    Tag, the strings the record holds, or the empty string where it has
    none. *)
Theorem single_record_parsed c (line : string) data (id : string) w :
  recordText line = true -> Unmarshal line = inr data ->
  holds data "id" id -> id <> "" ->
  (forall name, holds data "name" name -> name <> "" ->
     fst (parseContainerList Unmarshal c line w) = ([containerFor c id name], None)
     /\ Container.Image (containerFor c id name) = ""
     /\ Container.State (containerFor c id name) = "")
  /\ fst (parseImageList Unmarshal c line w)
     = ([imageFor c id (field data "name") (field data "tag")], None)
  /\ (forall key s, holds data key s -> field data key = s)
  /\ (forall key, absent data key -> field data key = "").
Proof.
  intros Htext Hdec Hid Hne.
  destruct (recordText_inv _ Htext) as (Hs & He & Hnl).
  assert (Hline : strings.TrimSpace line = line) by (apply TrimSpace_braces; assumption).
  assert (Hnb : String.eqb line "" = false).
  { destruct (startsWith_inv _ _ Hs) as [r ->]. reflexivity. }
  assert (Hfid : field data "id" = id) by (apply field_holds; assumption).
  split; [|split; [|split]].
  - intros name Hname Hne'. split; [|split; reflexivity].
    rewrite parseContainerList_fst, Hline, Hnb, (Split_line _ _ Hnl). simpl.
    rewrite (entityOfLine_recordText _ _ _ _ Htext Hdec).
    rewrite containerOfRecord_Some, Hfid, (field_holds _ _ _ Hname);
      [reflexivity|congruence|].
    rewrite (field_holds _ _ _ Hname). exact Hne'.
  - rewrite parseImageList_fst, Hline, Hnb, (Split_line _ _ Hnl). simpl.
    rewrite (entityOfLine_recordText _ _ _ _ Htext Hdec).
    rewrite imageOfRecord_Some, Hfid; [reflexivity|congruence].
  - intros key s. apply field_holds.
  - intros key. apply field_absent.
Qed.


(** C5. On an input that is empty or consists of white space only, both
    list parsers return an empty sequence and no error (and log nothing). *)
Theorem blank_output_empty c (output : string) w :
  Blank output ->
  parseContainerList Unmarshal c output w = (([], None), w)
  /\ parseImageList Unmarshal c output w = (([], None), w).
Proof.
  intros H. apply TrimSpace_Blank in H.
  unfold parseContainerList, parseImageList. rewrite H. split; reflexivity.
Qed.

(** C6. For every N and every input made of N lines joined by line feeds,
    each the text of a record the decoder accepts with its mandatory
    fields, the list parser returns no error and exactly N entities, the
    i-th of which is the entity of the record of the i-th line: for a
    container its id and name, for an image its id and, where it has them,
    its name and tag. *)
Theorem records_parsed_in_order c (lines : list string) w :
  (Forall (containerLine Unmarshal) lines ->
   exists containers,
     fst (parseContainerList Unmarshal c (strings.Join lines nl) w) = (containers, None)
     /\ length containers = length lines
     /\ Forall2 (fun line ctr =>
                   exists data id name, Unmarshal line = inr data
                     /\ holds data "id" id /\ holds data "name" name
                     /\ ctr = containerFor c id name)
          lines containers)
  /\ (Forall (imageLine Unmarshal) lines ->
      exists images,
        fst (parseImageList Unmarshal c (strings.Join lines nl) w) = (images, None)
        /\ length images = length lines
        /\ Forall2 (fun line img =>
                      exists data id, Unmarshal line = inr data
                        /\ holds data "id" id
                        /\ img = imageFor c id (field data "name") (field data "tag"))
             lines images).
Proof.
  split; intros Hall.
  - assert (H2 : Forall2 (fun line ctr =>
                   exists data id name, Unmarshal line = inr data
                     /\ holds data "id" id /\ holds data "name" name
                     /\ ctr = containerFor c id name)
                 lines (omap (entityOfLine Unmarshal (containerOfRecord c)) lines)).
    { induction Hall as [|line rest (Htext & data & Hdec & Hid & Hname) _ IH];
        [constructor|].
      simpl. rewrite (entityOfLine_recordText _ _ _ _ Htext Hdec).
      rewrite containerOfRecord_Some by (apply mandatory_field; assumption).
      destruct Hid as (id & Hid & _), Hname as (name & Hname & _).
      rewrite (field_holds _ _ _ Hid), (field_holds _ _ _ Hname).
      constructor; eauto 10. }
    eexists. split; [|split; [symmetry; eapply Forall2_length|]; exact H2].
    rewrite parseContainerList_fst.
    destruct lines as [|l0 rest]; [reflexivity|].
    destruct (Join_records (l0 :: rest)) as (Ht & Hsp & Hne); [congruence| |].
    { eapply Forall_impl; [exact Hall|]. intros l Hl. apply Hl. }
    rewrite Ht, Hsp. apply String.eqb_neq in Hne. rewrite Hne. reflexivity.
  - assert (H2 : Forall2 (fun line img =>
                   exists data id, Unmarshal line = inr data
                     /\ holds data "id" id
                     /\ img = imageFor c id (field data "name") (field data "tag"))
                 lines (omap (entityOfLine Unmarshal (imageOfRecord c)) lines)).
    { induction Hall as [|line rest (Htext & data & Hdec & Hid) _ IH];
        [constructor|].
      simpl. rewrite (entityOfLine_recordText _ _ _ _ Htext Hdec).
      rewrite imageOfRecord_Some by (apply mandatory_field; assumption).
      destruct Hid as (id & Hid & _). rewrite (field_holds _ _ _ Hid).
      constructor; eauto 10. }
    eexists. split; [|split; [symmetry; eapply Forall2_length|]; exact H2].
    rewrite parseImageList_fst.
    destruct lines as [|l0 rest]; [reflexivity|].
    destruct (Join_records (l0 :: rest)) as (Ht & Hsp & Hne); [congruence| |].
    { eapply Forall_impl; [exact Hall|]. intros l Hl. apply Hl. }
    rewrite Ht, Hsp. apply String.eqb_neq in Hne. rewrite Hne. reflexivity.
Qed.

Lemma entityOfLine_container c (line : string) (ctr : Container.t) :
  entityOfLine Unmarshal (containerOfRecord c) line = Some ctr ->
  Container.ID ctr <> "" /\ Container.Name ctr <> "".
Proof.
  unfold entityOfLine.
  destruct (String.eqb (strings.TrimSpace line) ""); [discriminate|].
  destruct (Unmarshal line) as [e|data]; [discriminate|].
  unfold containerOfRecord.
  destruct (String.eqb (field data "id") "") eqn:Hid; [discriminate|].
  destruct (String.eqb (field data "name") "") eqn:Hname; [discriminate|].
  simpl. intros [= <-]. simpl.
  apply String.eqb_neq in Hid, Hname. auto.
Qed.

Lemma entityOfLine_image c (line : string) (img : Image.t) :
  entityOfLine Unmarshal (imageOfRecord c) line = Some img -> Image.ID img <> "".
Proof.
  unfold entityOfLine.
  destruct (String.eqb (strings.TrimSpace line) ""); [discriminate|].
  destruct (Unmarshal line) as [e|data]; [discriminate|].
  unfold imageOfRecord.
  destruct (String.eqb (field data "id") "") eqn:Hid; [discriminate|].
  intros [= <-]. simpl. apply String.eqb_neq in Hid. exact Hid.
Qed.

(** C7. Whatever the input, every Container that [parseContainerList]
    returns has a non-empty ID and a non-empty Name, and every Image that
    [parseImageList] returns has a non-empty ID. *)
Theorem entities_have_identity c (output : string) w :
  Forall (fun ctr => Container.ID ctr <> "" /\ Container.Name ctr <> "")
    (fst (fst (parseContainerList Unmarshal c output w)))
  /\ Forall (fun img => Image.ID img <> "")
       (fst (fst (parseImageList Unmarshal c output w))).
Proof.
  rewrite parseContainerList_fst, parseImageList_fst. simpl.
  split; (destruct (String.eqb (strings.TrimSpace output) ""); [apply List.Forall_nil|]).
  - apply Forall_forall. intros ctr Hin.
    apply list_elem_of_omap in Hin as (line & _ & Hline).
    eapply entityOfLine_container, Hline.
  - apply Forall_forall. intros img Hin.
    apply list_elem_of_omap in Hin as (line & _ & Hline).
    eapply entityOfLine_image, Hline.
Qed.

(** C8. When the status command has run and given its output,
    [SystemStatus] returns an error and a nil map if the output fails to
    decode as one document, and the decoded map with a nil error if it
    decodes. *)
Theorem status_decoded_whole c w (output : string) (o : OSState) :
  RunCommandWithOutput "container system status --format json" (os w)
    = ((output, None), o) ->
  (forall e, Unmarshal output = inl e ->
     fst (SystemStatus RunCommandWithOutput Unmarshal c w)
     = (None, Some (Errorf_w "failed to parse system status: " e)))
  /\ (forall status, Unmarshal output = inr status ->
        fst (SystemStatus RunCommandWithOutput Unmarshal c w) = (status, None)).
Proof.
  intros Hrun.
  unfold SystemStatus, bind, runCommand, Log_at. simpl. rewrite Hrun. simpl.
  split; intros x Hx; rewrite Hx; reflexivity.
Qed.

(** C9. The list parsers are functions of their input: the sequence and
    the error that [parseContainerList] and [parseImageList] return do not
    depend on the state they are called in, so that a second call on the
    same input, made in the state the first one left, returns the same. *)
Theorem parse_deterministic c (output : string) w w' :
  (fst (parseContainerList Unmarshal c output w)
   = fst (parseContainerList Unmarshal c output w')
   /\ fst (parseImageList Unmarshal c output w)
      = fst (parseImageList Unmarshal c output w'))
  /\ (let first := parseContainerList Unmarshal c output w in
      fst (parseContainerList Unmarshal c output (snd first)) = fst first)
  /\ (let first := parseImageList Unmarshal c output w in
      fst (parseImageList Unmarshal c output (snd first)) = fst first).
Proof.
  repeat split; simpl; rewrite ?parseContainerList_fst, ?parseImageList_fst; reflexivity.
Qed.

Lemma GetContainers_error c w :
  snd (fst (GetContainers RunCommandWithOutput Unmarshal c w))
  = option_map (Errorf_w "failed to get containers: ")
      (snd (fst (RunCommandWithOutput "container ps --format json" (os w)))).
Proof.
  unfold GetContainers, bind, runCommand, Log_at. simpl.
  destruct (RunCommandWithOutput _ (os w)) as [[output [err|]] o]; simpl; [reflexivity|].
  pose proof (parseContainerList_fst Unmarshal c output
                {| os := o;
                   entries := logged InfoLevel "Getting containers from Apple Container"
                                (entries w) |}) as H.
  destruct (parseContainerList _ _ _ _) as [[containers err] w1]. simpl in H.
  injection H as _ ->. reflexivity.
Qed.

Lemma GetImages_error c w :
  snd (fst (GetImages RunCommandWithOutput Unmarshal c w))
  = option_map (Errorf_w "failed to get images: ")
      (snd (fst (RunCommandWithOutput "container images list --format json" (os w)))).
Proof.
  unfold GetImages, bind, runCommand, Log_at. simpl.
  destruct (RunCommandWithOutput _ (os w)) as [[output [err|]] o]; simpl; [reflexivity|].
  pose proof (parseImageList_fst Unmarshal c output
                {| os := o;
                   entries := logged InfoLevel "Getting images from Apple Container"
                                (entries w) |}) as H.
  destruct (parseImageList _ _ _ _) as [[images err] w1]. simpl in H.
  injection H as _ ->. reflexivity.
Qed.

(** C10. Whatever the input, the error that [parseContainerList] and
    [parseImageList] return is nil; the error of [GetContainers] and of
    [GetImages] is therefore the error of the command they run, wrapped,
    and nil when the command succeeds. *)
Theorem parsing_never_fails c (output : string) w :
  snd (fst (parseContainerList Unmarshal c output w)) = None
  /\ snd (fst (parseImageList Unmarshal c output w)) = None
  /\ snd (fst (GetContainers RunCommandWithOutput Unmarshal c w))
     = option_map (Errorf_w "failed to get containers: ")
         (snd (fst (RunCommandWithOutput "container ps --format json" (os w))))
  /\ snd (fst (GetImages RunCommandWithOutput Unmarshal c w))
     = option_map (Errorf_w "failed to get images: ")
         (snd (fst (RunCommandWithOutput "container images list --format json" (os w)))).
Proof.
  rewrite parseContainerList_fst, parseImageList_fst.
  repeat split; [apply GetContainers_error|apply GetImages_error].
Qed.

End Claims.

(** ** The adapter on the inputs of the repository's tests *)

Local Ltac evaluate := vm_compute; reflexivity.

(** [TestParseContainerList]: the number of containers and a nil error. *)
Example test_parse_container_list :
  fst (parseContainerList RefJSON.Unmarshal cmd0 "" world0) = ([], None)
  /\ fst (parseContainerList RefJSON.Unmarshal cmd0 runningLine world0)
     = ([containerFor cmd0 "abc123" "test-container"], None)
  /\ fst (parseContainerList RefJSON.Unmarshal cmd0 twoContainers world0)
     = ([containerFor cmd0 "abc123" "test-container-1";
         containerFor cmd0 "def456" "test-container-2"], None)
  /\ fst (parseContainerList RefJSON.Unmarshal cmd0 invalidLine world0) = ([], None)
  /\ fst (parseContainerList RefJSON.Unmarshal cmd0 noIdentityLine world0) = ([], None).
Proof. repeat split; evaluate. Qed.

(** [TestParseImageList]. *)
Example test_parse_image_list :
  fst (parseImageList RefJSON.Unmarshal cmd0 "" world0) = ([], None)
  /\ fst (parseImageList RefJSON.Unmarshal cmd0 image1Line world0)
     = ([imageFor cmd0 "img123" "nginx" "latest"], None)
  /\ fst (parseImageList RefJSON.Unmarshal cmd0 twoImages world0)
     = ([imageFor cmd0 "img123" "nginx" "latest";
         imageFor cmd0 "img456" "redis" "6-alpine"], None)
  /\ fst (parseImageList RefJSON.Unmarshal cmd0 noIdImageLine world0) = ([], None).
Proof. repeat split; evaluate. Qed.

(** [TestJsonToContainer], cases "state mapping" and "missing id". *)
Example test_json_to_container :
  fst (jsonToContainer cmd0 stoppedRecord world0)
  = Some (containerFor cmd0 "abc123" "test-container")
  /\ fst (jsonToContainer cmd0 (Some (delete "id" (default ∅ stoppedRecord))) world0) = None
  /\ fst (jsonToContainer cmd0 (Some (delete "name" (default ∅ stoppedRecord))) world0) = None.
Proof. repeat split; evaluate. Qed.

(** [TestJsonToImage], cases "partial data" and "missing id". *)
Example test_json_to_image :
  fst (jsonToImage cmd0 partialImageRecord world0) = Some (imageFor cmd0 "img123" "nginx" "")
  /\ fst (jsonToImage cmd0 (decoded noIdImageLine) world0) = None.
Proof. repeat split; evaluate. Qed.

(** The outer trimming is by Unicode white space, the decoder's by JSON
    white space: a vertical tab before a record goes when it starts the
    output and makes the line malformed when it does not. *)
Example vertical_tab_before_record :
  fst (parseContainerList RefJSON.Unmarshal cmd0 (EncodeRune 11 ++ runningLine) world0)
  = ([containerFor cmd0 "abc123" "test-container"], None)
  /\ fst (parseContainerList RefJSON.Unmarshal cmd0
            (invalidLine ++ String nl (EncodeRune 11 ++ runningLine)) world0)
     = ([], None).
Proof. repeat split; evaluate. Qed.

(** ** The claims on concrete inputs *)

Local Ltac holding := eexists; split; [reflexivity|evaluate].
Local Ltac having := eexists; split; [holding|discriminate].

(** C1 as claimed fails when the malformed line is the first of the
    output and the next one starts with white space that JSON does not
    know, a vertical tab here: with the malformed line the record's line is
    decoded as it is and rejected, without it the outer trimming takes the
    vertical tab away and the record is returned. *)
Lemma malformed_first_line_changes_next :
  RefJSON.Unmarshal invalidLine = inl (errorString "json: syntax error")
  /\ fst (parseContainerList RefJSON.Unmarshal cmd0
            (invalidLine +:+ String nl (EncodeRune 11 +:+ runningLine)) world0)
     = ([], None)
  /\ fst (parseContainerList RefJSON.Unmarshal cmd0
            (EncodeRune 11 +:+ runningLine) world0)
     = ([containerFor cmd0 "abc123" "test-container"], None)
  /\ fst (parseContainerList RefJSON.Unmarshal cmd0
            (invalidLine +:+ String nl (EncodeRune 11 +:+ runningLine)) world0)
     <> fst (parseContainerList RefJSON.Unmarshal cmd0
               (EncodeRune 11 +:+ runningLine) world0).
Proof.
  split; [evaluate|]. split; [evaluate|]. split; [evaluate|].
  vm_compute. discriminate.
Qed.

(** C1 as the code has it, on the two test containers with the invalid
    line between them. *)
Lemma malformed_line_dropped_witness :
  (strings.Split (strings.TrimSpace brokenContainers) nl
   = [container1Line] ++ invalidLine :: [container2Line]
   /\ RefJSON.Unmarshal invalidLine = inl (errorString "json: syntax error"))
  /\ fst (parseContainerList RefJSON.Unmarshal cmd0 brokenContainers world0)
     = fst (parseContainerList RefJSON.Unmarshal cmd0 twoContainers world0)
  /\ length (fst (fst (parseContainerList RefJSON.Unmarshal cmd0 brokenContainers world0)))
     = 2.
Proof.
  split; [split; evaluate|].
  split; [|evaluate].
  apply (proj2 (malformed_line_dropped RefJSON.Unmarshal cmd0
                  brokenContainers twoContainers [container1Line] [container2Line]
                  invalidLine (errorString "json: syntax error") world0 world0
                  ltac:(evaluate) ltac:(evaluate)) ltac:(evaluate)).
Defined.



(** C3 as claimed fails on the line of the test "single container": the
    record has the image "nginx" and the state "running", the one Container
    returned has neither. *)
Lemma container_image_and_state_not_kept :
  recordText runningLine = true
  /\ RefJSON.Unmarshal runningLine = inr (decoded runningLine)
  /\ holds (decoded runningLine) "image" "nginx"
  /\ holds (decoded runningLine) "state" "running"
  /\ exists ctr,
       fst (parseContainerList RefJSON.Unmarshal cmd0 runningLine world0) = ([ctr], None)
       /\ Container.Image ctr <> "nginx"
       /\ Container.State ctr <> "running".
Proof.
  split; [evaluate|]. split; [evaluate|]. split; [holding|]. split; [holding|].
  eexists. split; [evaluate|]. split; discriminate.
Qed.

(** C3 as the code has it, on the same line. *)
Lemma single_record_parsed_witness :
  (recordText runningLine = true
   /\ RefJSON.Unmarshal runningLine = inr (decoded runningLine)
   /\ holds (decoded runningLine) "id" "abc123"
   /\ holds (decoded runningLine) "name" "test-container")
  /\ fst (parseContainerList RefJSON.Unmarshal cmd0 runningLine world0)
     = ([containerFor cmd0 "abc123" "test-container"], None).
Proof.
  assert (Hid : holds (decoded runningLine) "id" "abc123") by holding.
  assert (Hname : holds (decoded runningLine) "name" "test-container") by holding.
  split; [repeat split; first [assumption|evaluate]|].
  apply (proj1 (single_record_parsed RefJSON.Unmarshal cmd0 runningLine
                  (decoded runningLine) "abc123" world0
                  ltac:(evaluate) ltac:(evaluate) Hid ltac:(discriminate))
           "test-container" Hname ltac:(discriminate)).
Defined.


Lemma Blank_blankOutput : Blank blankOutput.
Proof. unfold blankOutput. repeat (apply Blank_rune; [simpl; tauto|]). apply Blank_nil. Defined.

(** C5 on a space, a tab, a line feed, U+00A0 and U+2003. *)
Lemma blank_output_empty_witness :
  Blank blankOutput
  /\ parseContainerList RefJSON.Unmarshal cmd0 blankOutput world0 = (([], None), world0)
  /\ parseImageList RefJSON.Unmarshal cmd0 blankOutput world0 = (([], None), world0).
Proof.
  split; [exact Blank_blankOutput|].
  apply (blank_output_empty RefJSON.Unmarshal cmd0 blankOutput world0 Blank_blankOutput).
Defined.

(** C6 on the two lines of the test "multiple containers". *)
Lemma records_parsed_in_order_witness :
  Forall (containerLine RefJSON.Unmarshal) [container1Line; container2Line]
  /\ exists containers,
       fst (parseContainerList RefJSON.Unmarshal cmd0 twoContainers world0)
       = (containers, None)
       /\ length containers = 2
       /\ Container.ID <$> containers = ["abc123"; "def456"].
Proof.
  assert (H : Forall (containerLine RefJSON.Unmarshal) [container1Line; container2Line]).
  { apply List.Forall_cons; [|apply List.Forall_cons; [|apply List.Forall_nil]];
      (split; [evaluate|]); (eexists; split; [evaluate|]); split; having. }
  split; [exact H|].
  destruct (proj1 (records_parsed_in_order RefJSON.Unmarshal cmd0
                     [container1Line; container2Line] world0) H)
    as (containers & Hrun & Hlen & _).
  exists containers. split; [exact Hrun|]. split; [exact Hlen|].
  change (strings.Join [container1Line; container2Line] nl) with twoContainers in Hrun.
  assert (E : containers
              = fst (fst (parseContainerList RefJSON.Unmarshal cmd0 twoContainers world0)))
    by (rewrite Hrun; reflexivity).
  rewrite E. evaluate.
Defined.

(** C8 on a status document and on a malformed one. *)
Lemma status_decoded_whole_witness :
  replay "container system status --format json" (os (printing statusDocument))
    = ((statusDocument, None), [])
  /\ fst (SystemStatus replay RefJSON.Unmarshal cmd0 (printing statusDocument))
     = (decoded statusDocument, None)
  /\ fst (SystemStatus replay RefJSON.Unmarshal cmd0 (printing invalidLine))
     = (None, Some (Errorf_w "failed to parse system status: "
                      (errorString "json: syntax error"))).
Proof.
  split; [reflexivity|]. split.
  - apply (proj2 (status_decoded_whole replay RefJSON.Unmarshal cmd0
                    (printing statusDocument) statusDocument [] ltac:(reflexivity))).
    evaluate.
  - apply (proj1 (status_decoded_whole replay RefJSON.Unmarshal cmd0
                    (printing invalidLine) invalidLine [] ltac:(reflexivity))).
    evaluate.
Defined.

(** * Further properties of the adapter *)

(** ** White space around the output *)

Local Open Scope string_scope.

Lemma trimRunes_Blank (s : string) : Blank s -> strings.trimRunes true s = "".
Proof.
  intros H. induction H as [|r s Hr _ IH]; [reflexivity|].
  rewrite trimRunes_space; assumption.
Qed.

Lemma Blank_app (s t : string) : Blank s -> Blank t -> Blank (s ++ t).
Proof.
  intros Hs Ht. induction Hs as [|r s Hr _ IH]; [exact Ht|].
  rewrite append_assoc. apply Blank_rune; assumption.
Qed.

Lemma trimRunes_Blank_prefix (pre s : string) :
  Blank pre -> strings.trimRunes true (pre ++ s) = strings.trimRunes true s.
Proof.
  intros H. induction H as [|r pre Hr _ IH]; [reflexivity|].
  rewrite append_assoc, trimRunes_space; assumption.
Qed.

Lemma trimRunes_rev_space (r : N) (s : string) :
  In r whiteSpace ->
  strings.trimRunes false (srev (EncodeRune r) ++ s) = strings.trimRunes false s.
Proof.
  intros H. simpl in H.
  repeat (destruct H as [<-|H]; [reflexivity|]). contradiction.
Qed.

Lemma trimRunes_rev_Blank (post : string) :
  Blank post -> forall s,
  strings.trimRunes false (srev post ++ s) = strings.trimRunes false s.
Proof.
  intros H. induction H as [|r post Hr _ IH]; intros s; [reflexivity|].
  rewrite srev_append, append_assoc, IH. apply trimRunes_rev_space, Hr.
Qed.

(** The first byte of a white-space rune is not a continuation byte, and
    the bytes after the first of a rune of two or three bytes are. *)
Lemma Blank_first (b : ascii) (p : string) : Blank (String b p) -> continuation b = false.
Proof.
  intros H. remember (String b p) as t eqn:E.
  destruct H as [|r s Hr _]; [discriminate|].
  simpl in Hr.
  repeat (destruct Hr as [<-|Hr]; [lazy in E; injection E as <- _; reflexivity|]).
  contradiction.
Qed.

Lemma space2_continuation (a b : ascii) :
  strings.space2 a b = true -> continuation b = true.
Proof.
  intros H. codes H. unfold continuation.
  apply andb_true_iff. rewrite N.leb_le, N.ltb_lt. lia.
Qed.

Lemma space3_continuation (a b c : ascii) :
  strings.space3 a b c = true -> continuation b = true /\ continuation c = true.
Proof.
  intros H. codes H. unfold continuation.
  rewrite !andb_true_iff, !N.leb_le, !N.ltb_lt. lia.
Qed.

Lemma space2_first (a b : ascii) (p : string) :
  Blank (String b p) -> strings.space2 a b = false.
Proof.
  intros H. apply Blank_first in H.
  destruct (strings.space2 a b) eqn:E; [|reflexivity].
  apply space2_continuation in E. congruence.
Qed.

Lemma space3_first (a b c : ascii) (p : string) :
  Blank (String b p) \/ Blank (String c p) -> strings.space3 a b c = false.
Proof.
  intros H. destruct (strings.space3 a b c) eqn:E; [|reflexivity].
  apply space3_continuation in E as [Eb Ec].
  destruct H as [H|H]; apply Blank_first in H; congruence.
Qed.

(** White space after a text that is not blank does not change where the
    trimming from the left stops. *)
Lemma trimRunes_append_Blank (post : string) (n : nat) : forall s,
  String.length s <= n -> Blank post -> strings.trimRunes true s <> "" ->
  strings.trimRunes true (s ++ post) = strings.trimRunes true s ++ post.
Proof.
  induction n as [|n IH]; intros s Hn Hpost Hne.
  - destruct s; [contradiction Hne; reflexivity|simpl in Hn; lia].
  - destruct s as [|a r1]; [contradiction Hne; reflexivity|].
    simpl in Hn. rewrite append_cons. simpl in Hne |- *.
    destruct (strings.space1 a) eqn:E1; [apply IH; [lia|assumption..]|].
    destruct r1 as [|b r2].
    { rewrite append_nil_l. destruct post as [|x [|y post]]; [reflexivity|..].
      - rewrite (space2_first a x "") by exact Hpost. reflexivity.
      - rewrite (space2_first a x (String y post)) by exact Hpost.
        rewrite (space3_first a x y (String y post)) by (left; exact Hpost).
        reflexivity. }
    rewrite append_cons.
    destruct (strings.space2 a b) eqn:E2; [apply IH; [simpl in Hn; lia|assumption..]|].
    destruct r2 as [|c r3].
    { rewrite append_nil_l. destruct post as [|x post]; [reflexivity|].
      rewrite (space3_first a b x post) by (right; exact Hpost). reflexivity. }
    rewrite append_cons.
    destruct (strings.space3 a b c) eqn:E3; [apply IH; [simpl in Hn; lia|assumption..]|].
    reflexivity.
Qed.

(** White space before and after a text is trimmed away with the text's
    own. *)
Lemma TrimSpace_padded (pre s post : string) :
  Blank pre -> Blank post ->
  strings.TrimSpace (pre ++ s ++ post) = strings.TrimSpace s.
Proof.
  intros Hpre Hpost.
  unfold strings.TrimSpace, strings.TrimLeftSpace, strings.TrimRightSpace.
  rewrite trimRunes_Blank_prefix by exact Hpre.
  destruct (strings.trimRunes true s) as [|a u] eqn:E.
  - apply (trimRunes_empty _ _ (le_n _)) in E.
    rewrite trimRunes_Blank by (apply Blank_app; assumption). reflexivity.
  - rewrite (trimRunes_append_Blank post _ s (le_n _) Hpost) by congruence.
    rewrite E, srev_append, trimRunes_rev_Blank by exact Hpost. reflexivity.
Qed.

Local Close Scope string_scope.

(** ** The parsers, with what they log *)

Section Parsing.

Context {OSState : Type} (Unmarshal : string -> error + RawRecord).
Implicit Types (c : AppleContainerCommand) (w : World OSState) (lines : list string).
Implicit Types (data : RawRecord).

(** The parser is its loop over the lines of the trimmed output, also when
    the output is blank: the early return saves the loop one empty line. *)
Lemma parseContainerList_loop c (output : string) w :
  parseContainerList Unmarshal c output w
  = (let (containers, w') :=
       parseContainerLines Unmarshal c (strings.Split (strings.TrimSpace output) nl) [] w
     in ((containers, None), w')).
Proof.
  unfold parseContainerList.
  destruct (String.eqb (strings.TrimSpace output) "") eqn:E; [|reflexivity].
  apply String.eqb_eq in E. rewrite E. reflexivity.
Qed.

Lemma parseImageList_loop c (output : string) w :
  parseImageList Unmarshal c output w
  = (let (images, w') :=
       parseImageLines Unmarshal c (strings.Split (strings.TrimSpace output) nl) [] w
     in ((images, None), w')).
Proof.
  unfold parseImageList.
  destruct (String.eqb (strings.TrimSpace output) "") eqn:E; [|reflexivity].
  apply String.eqb_eq in E. rewrite E. reflexivity.
Qed.

Lemma parseContainerLines_app c (ls1 ls2 : list string) containers w :
  parseContainerLines Unmarshal c (ls1 ++ ls2) containers w
  = (let (found, w1) := parseContainerLines Unmarshal c ls1 containers w in
     parseContainerLines Unmarshal c ls2 found w1).
Proof.
  revert containers w.
  induction ls1 as [|line rest IH]; intros containers w; [reflexivity|]. simpl.
  destruct (String.eqb (strings.TrimSpace line) ""); [apply IH|].
  destruct (Unmarshal line) as [err|data]; unfold bind.
  - simpl. apply IH.
  - rewrite jsonToContainer_eq. destruct (containerOfRecord c data); apply IH.
Qed.

Lemma parseImageLines_app c (ls1 ls2 : list string) images w :
  parseImageLines Unmarshal c (ls1 ++ ls2) images w
  = (let (found, w1) := parseImageLines Unmarshal c ls1 images w in
     parseImageLines Unmarshal c ls2 found w1).
Proof.
  revert images w.
  induction ls1 as [|line rest IH]; intros images w; [reflexivity|]. simpl.
  destruct (String.eqb (strings.TrimSpace line) ""); [apply IH|].
  destruct (Unmarshal line) as [err|data]; unfold bind.
  - simpl. apply IH.
  - rewrite jsonToImage_eq. destruct (imageOfRecord c data); apply IH.
Qed.

(** X1. The loops are folds: parsing the lines [ls1 ++ ls2] is parsing
    [ls1] and then, from the entities and the state reached, [ls2]. *)
Theorem parse_lines_compose c (ls1 ls2 : list string) :
  (forall containers w,
     parseContainerLines Unmarshal c (ls1 ++ ls2) containers w
     = (let (found, w1) := parseContainerLines Unmarshal c ls1 containers w in
        parseContainerLines Unmarshal c ls2 found w1))
  /\ (forall images w,
        parseImageLines Unmarshal c (ls1 ++ ls2) images w
        = (let (found, w1) := parseImageLines Unmarshal c ls1 images w in
           parseImageLines Unmarshal c ls2 found w1)).
Proof.
  split; intros; [apply parseContainerLines_app|apply parseImageLines_app].
Qed.

(** X2. A blank line anywhere in the output is skipped without a trace:
    the parsers return the same entities and leave the same log as on an
    output whose lines are the same without it. *)
Theorem blank_line_skipped c (output output' : string) (ls1 ls2 : list string)
    (blank : string) w :
  strings.Split (strings.TrimSpace output) nl = ls1 ++ blank :: ls2 ->
  strings.Split (strings.TrimSpace output') nl = ls1 ++ ls2 ->
  strings.TrimSpace blank = ""%string ->
  parseContainerList Unmarshal c output w = parseContainerList Unmarshal c output' w
  /\ parseImageList Unmarshal c output w = parseImageList Unmarshal c output' w.
Proof.
  intros H H' Hb.
  rewrite !parseContainerList_loop, !parseImageList_loop, H, H'.
  rewrite !parseContainerLines_app, !parseImageLines_app.
  split.
  - destruct (parseContainerLines Unmarshal c ls1 [] w) as [found w1].
    simpl. rewrite Hb. reflexivity.
  - destruct (parseImageLines Unmarshal c ls1 [] w) as [found w1].
    simpl. rewrite Hb. reflexivity.
Qed.

(** X3. White space before and after the output (the line feed that ends
    it, say) changes neither what the parsers return nor what they log. *)
Theorem outer_space_ignored c (pre output post : string) w :
  Blank pre -> Blank post ->
  parseContainerList Unmarshal c (pre +:+ output +:+ post) w
  = parseContainerList Unmarshal c output w
  /\ parseImageList Unmarshal c (pre +:+ output +:+ post) w
     = parseImageList Unmarshal c output w.
Proof.
  intros Hpre Hpost.
  unfold parseContainerList, parseImageList.
  rewrite (TrimSpace_padded pre output post Hpre Hpost). split; reflexivity.
Qed.

Lemma nonBlank_cons (line : string) lines :
  nonBlank (line :: lines)
  = if String.eqb (strings.TrimSpace line) "" then nonBlank lines
    else line :: nonBlank lines.
Proof. unfold nonBlank. simpl. destruct (String.eqb _ _); reflexivity. Qed.

(** What one more entry does to the count of a level. *)
Lemma atLevel_logged (lv lv' : Level) (msg : string) (es : list Entry) :
  atLevel lv ({| level := lv'; message := msg |} :: es)
  = match lv', lv with
    | DebugLevel, DebugLevel | InfoLevel, InfoLevel
    | WarnLevel, WarnLevel | ErrorLevel, ErrorLevel =>
        {| level := lv'; message := msg |} :: atLevel lv es
    | _, _ => atLevel lv es
    end.
Proof. destruct lv, lv'; reflexivity. Qed.

Local Ltac account IH w1 :=
  match goal with
  | |- context [parseContainerLines _ _ _ ?cs ?w'] =>
      destruct (IH cs w') as (Hos & added & Hlog & Hlen & Hinfo & Herr & Hent)
  | |- context [parseImageLines _ _ _ ?cs ?w'] =>
      destruct (IH cs w') as (Hos & added & Hlog & Hlen & Hinfo & Herr & Hent)
  end.

Lemma parseContainerLines_log c lines : forall containers w,
  let r := parseContainerLines Unmarshal c lines containers w in
  os (snd r) = os w
  /\ exists added,
       entries (snd r) = entries w ++ added
       /\ length added = length (nonBlank lines)
       /\ atLevel InfoLevel added = []
       /\ atLevel ErrorLevel added = []
       /\ length (fst r) = length containers + length (atLevel DebugLevel added).
Proof.
  induction lines as [|line rest IH]; intros containers w; cbv zeta.
  - simpl. split; [reflexivity|]. exists []. rewrite app_nil_r. simpl. auto with arith.
  - rewrite nonBlank_cons. simpl.
    destruct (String.eqb (strings.TrimSpace line) ""); [apply IH|].
    destruct (Unmarshal line) as [err|data]; unfold bind.
    + simpl. account IH w. simpl in Hos, Hlog. unfold logged in Hlog.
      rewrite <- app_assoc in Hlog. split; [exact Hos|]. eexists. split; [exact Hlog|].
      cbn [app]. rewrite !atLevel_logged. cbn [length]. repeat split; auto; lia.
    + rewrite jsonToContainer_eq. destruct (containerOfRecord c data) as [ctr|].
      * account IH w. simpl in Hos, Hlog. unfold logged in Hlog.
        rewrite <- app_assoc in Hlog. split; [exact Hos|]. eexists. split; [exact Hlog|].
        cbn [app]. rewrite !atLevel_logged. rewrite length_app in Hent.
        cbn [length] in *. repeat split; auto; lia.
      * account IH w. simpl in Hos, Hlog. unfold logged in Hlog.
        rewrite <- app_assoc in Hlog. split; [exact Hos|]. eexists. split; [exact Hlog|].
        cbn [app]. rewrite !atLevel_logged. cbn [length]. repeat split; auto; lia.
Qed.

Lemma parseImageLines_log c lines : forall images w,
  let r := parseImageLines Unmarshal c lines images w in
  os (snd r) = os w
  /\ exists added,
       entries (snd r) = entries w ++ added
       /\ length added = length (nonBlank lines)
       /\ atLevel InfoLevel added = []
       /\ atLevel ErrorLevel added = []
       /\ length (fst r) = length images + length (atLevel DebugLevel added).
Proof.
  induction lines as [|line rest IH]; intros images w; cbv zeta.
  - simpl. split; [reflexivity|]. exists []. rewrite app_nil_r. simpl. auto with arith.
  - rewrite nonBlank_cons. simpl.
    destruct (String.eqb (strings.TrimSpace line) ""); [apply IH|].
    destruct (Unmarshal line) as [err|data]; unfold bind.
    + simpl. account IH w. simpl in Hos, Hlog. unfold logged in Hlog.
      rewrite <- app_assoc in Hlog. split; [exact Hos|]. eexists. split; [exact Hlog|].
      cbn [app]. rewrite !atLevel_logged. cbn [length]. repeat split; auto; lia.
    + rewrite jsonToImage_eq. destruct (imageOfRecord c data) as [img|].
      * account IH w. simpl in Hos, Hlog. unfold logged in Hlog.
        rewrite <- app_assoc in Hlog. split; [exact Hos|]. eexists. split; [exact Hlog|].
        cbn [app]. rewrite !atLevel_logged. rewrite length_app in Hent.
        cbn [length] in *. repeat split; auto; lia.
      * account IH w. simpl in Hos, Hlog. unfold logged in Hlog.
        rewrite <- app_assoc in Hlog. split; [exact Hos|]. eexists. split; [exact Hlog|].
        cbn [app]. rewrite !atLevel_logged. cbn [length]. repeat split; auto; lia.
Qed.

(** X4. The parsers account for every line: they leave the machine alone
    and add to the log one entry for each line that is not blank, a debug
    entry for each entity they return and a warning for each line they
    drop, and nothing at the levels info and error. *)
Theorem diagnostics_accounted c (output : string) w :
  (let r := parseContainerList Unmarshal c output w in
   os (snd r) = os w
   /\ exists added,
        entries (snd r) = entries w ++ added
        /\ length added = length (nonBlank (strings.Split (strings.TrimSpace output) nl))
        /\ length (atLevel DebugLevel added) = length (fst (fst r))
        /\ length (atLevel WarnLevel added) = length added - length (fst (fst r))
        /\ atLevel InfoLevel added = [] /\ atLevel ErrorLevel added = [])
  /\ (let r := parseImageList Unmarshal c output w in
      os (snd r) = os w
      /\ exists added,
           entries (snd r) = entries w ++ added
           /\ length added = length (nonBlank (strings.Split (strings.TrimSpace output) nl))
           /\ length (atLevel DebugLevel added) = length (fst (fst r))
           /\ length (atLevel WarnLevel added) = length added - length (fst (fst r))
           /\ atLevel InfoLevel added = [] /\ atLevel ErrorLevel added = []).
Proof.
  assert (Hsum : forall es : list Entry,
            length es = length (atLevel DebugLevel es) + length (atLevel InfoLevel es)
                        + length (atLevel WarnLevel es) + length (atLevel ErrorLevel es)).
  { induction es as [|[lv msg] es IH]; [reflexivity|].
    rewrite !atLevel_logged. destruct lv; simpl; lia. }
  split; cbv zeta.
  - rewrite parseContainerList_loop.
    destruct (parseContainerLines_log c (strings.Split (strings.TrimSpace output) nl) [] w)
      as (Hos & added & Hlog & Hlen & Hinfo & Herr & Hent).
    destruct (parseContainerLines _ _ _ _ _) as [containers w']. simpl in *.
    split; [exact Hos|]. exists added. specialize (Hsum added).
    rewrite Hinfo, Herr in Hsum. simpl in Hsum. repeat split; auto; lia.
  - rewrite parseImageList_loop.
    destruct (parseImageLines_log c (strings.Split (strings.TrimSpace output) nl) [] w)
      as (Hos & added & Hlog & Hlen & Hinfo & Herr & Hent).
    destruct (parseImageLines _ _ _ _ _) as [images w']. simpl in *.
    split; [exact Hos|]. exists added. specialize (Hsum added).
    rewrite Hinfo, Herr in Hsum. simpl in Hsum. repeat split; auto; lia.
Qed.

End Parsing.

(** ** The mappers and the entities *)

Section Entities.

Context {OSState : Type} (Unmarshal : string -> error + RawRecord).
Implicit Types (c : AppleContainerCommand) (w : World OSState) (data : RawRecord).

Lemma field_mandatory data (key : string) : field data key <> ""%string <-> mandatory data key.
Proof.
  split; [|apply mandatory_field].
  unfold field, index, mandatory, holds. intros H.
  destruct data as [m|]; [|contradiction H; reflexivity].
  destruct (m !! key) as [v|] eqn:E; [|contradiction H; reflexivity].
  destruct v; try (contradiction H; reflexivity).
  simpl in H. eauto 6.
Qed.

(** X5. [jsonToContainer] returns a Container exactly when the record holds
    a non-empty string under "id" and under "name", and [jsonToImage] an
    Image exactly when it holds one under "id": a field that is absent,
    empty or not a string (a number, say), or a nil record, gives nil. *)
Theorem mapper_accepts_exactly c data w :
  (is_Some (fst (jsonToContainer c data w))
   <-> mandatory data "id" /\ mandatory data "name")
  /\ (is_Some (fst (jsonToImage c data w)) <-> mandatory data "id").
Proof.
  rewrite jsonToContainer_eq, jsonToImage_eq, <- !field_mandatory.
  unfold containerOfRecord, imageOfRecord.
  destruct (String.eqb_spec (field data "id") "") as [Hid|Hid];
    destruct (String.eqb_spec (field data "name") "") as [Hname|Hname]; simpl;
    (split; split);
    first [ intros [x Hx]; discriminate Hx
          | intros _; tauto
          | intros _; eexists; reflexivity
          | intros H; exfalso; tauto ].
Qed.

Lemma entityOfLine_containerFor c (line : string) (ctr : Container.t) :
  entityOfLine Unmarshal (containerOfRecord c) line = Some ctr ->
  exists id name, ctr = containerFor c id name.
Proof.
  unfold entityOfLine.
  destruct (String.eqb (strings.TrimSpace line) ""); [discriminate|].
  destruct (Unmarshal line) as [e|data]; [discriminate|].
  unfold containerOfRecord. destruct (_ || _); [discriminate|].
  intros [= <-]. eauto.
Qed.

Lemma entityOfLine_imageFor c (line : string) (img : Image.t) :
  entityOfLine Unmarshal (imageOfRecord c) line = Some img ->
  exists id name tag, img = imageFor c id name tag.
Proof.
  unfold entityOfLine.
  destruct (String.eqb (strings.TrimSpace line) ""); [discriminate|].
  destruct (Unmarshal line) as [e|data]; [discriminate|].
  unfold imageOfRecord. destruct (String.eqb _ _); [discriminate|].
  intros [= <-]. eauto.
Qed.

(** X6. Whatever the input, every entity the parsers return borrows the
    collaborators of the adapter that made it (OSCommand and Log, and Tr for
    a Container), and every Container has its Image and State empty. *)
Theorem entities_borrow_context c (output : string) w :
  Forall (fun ctr => Container.OSCommand ctr = OSCommand c
                     /\ Container.Log ctr = Log c /\ Container.Tr ctr = Tr c
                     /\ Container.Image ctr = ""%string
                     /\ Container.State ctr = ""%string)
    (fst (fst (parseContainerList Unmarshal c output w)))
  /\ Forall (fun img => Image.OSCommand img = OSCommand c /\ Image.Log img = Log c)
       (fst (fst (parseImageList Unmarshal c output w))).
Proof.
  rewrite parseContainerList_fst, parseImageList_fst. simpl.
  split; (destruct (String.eqb (strings.TrimSpace output) ""); [apply List.Forall_nil|]).
  - apply Forall_forall. intros ctr Hin.
    apply list_elem_of_omap in Hin as (line & _ & Hline).
    apply entityOfLine_containerFor in Hline as (id & name & ->). simpl. auto.
  - apply Forall_forall. intros img Hin.
    apply list_elem_of_omap in Hin as (line & _ & Hline).
    apply entityOfLine_imageFor in Hline as (id & name & tag & ->). simpl. auto.
Qed.

(** X7. The parsers never return more entities than the output has lines
    that are not blank, so the slice they append to, made with as much
    capacity as there are lines, never has to grow. *)
Theorem entities_within_capacity c (output : string) w :
  let lines := strings.Split (strings.TrimSpace output) nl in
  (length (fst (fst (parseContainerList Unmarshal c output w))) <= length (nonBlank lines)
   /\ length (fst (fst (parseImageList Unmarshal c output w))) <= length (nonBlank lines))
  /\ length (nonBlank lines) <= length lines.
Proof.
  assert (H : forall A (f : RawRecord -> option A) lines,
            length (omap (entityOfLine Unmarshal f) lines) <= length (nonBlank lines)).
  { intros A f lines. induction lines as [|line rest IH]; [reflexivity|].
    rewrite nonBlank_cons. remember (nonBlank rest) as kept.
    simpl. unfold entityOfLine at 1.
    destruct (String.eqb (strings.TrimSpace line) ""); [exact IH|].
    destruct (Unmarshal line) as [e|data]; [simpl; apply le_S, IH|].
    destruct (f data); simpl; [apply le_n_S, IH|apply le_S, IH]. }
  cbv zeta. rewrite parseContainerList_fst, parseImageList_fst. simpl.
  split; [|unfold nonBlank; apply List.filter_length_le].
  destruct (String.eqb (strings.TrimSpace output) ""); [simpl; split; lia|].
  split; apply H.
Qed.

End Entities.

(** ** The retrieval operations *)

Section Retrieval.

Context {OSState : Type}.
Context (RunCommandWithOutput : string -> OSState -> (string * option error) * OSState).
Context (Unmarshal : string -> error + RawRecord).
Implicit Types (c : AppleContainerCommand) (w : World OSState).

Lemma parseContainerList_os c (output : string) w :
  os (snd (parseContainerList Unmarshal c output w)) = os w.
Proof.
  rewrite parseContainerList_loop.
  pose proof (parseContainerLines_os Unmarshal c
                (strings.Split (strings.TrimSpace output) nl) [] w) as H.
  destruct (parseContainerLines _ _ _ _ _) as [containers w']. exact H.
Qed.

Lemma parseImageList_os c (output : string) w :
  os (snd (parseImageList Unmarshal c output w)) = os w.
Proof.
  rewrite parseImageList_loop.
  pose proof (parseImageLines_os Unmarshal c
                (strings.Split (strings.TrimSpace output) nl) [] w) as H.
  destruct (parseImageLines _ _ _ _ _) as [images w']. exact H.
Qed.

(** X8. When the listing command fails, [GetContainers] and [GetImages]
    return no entity and an error that wraps the command's (its message
    after theirs), log the failure at error level and do not look at the
    output the command gave. *)
Theorem retrieval_failure c w (output : string) (err : error) (o : OSState) :
  (RunCommandWithOutput "container ps --format json" (os w) = ((output, Some err), o) ->
   GetContainers RunCommandWithOutput Unmarshal c w
   = (([], Some (wrapError ("failed to get containers: " +:+ Error err) err)),
      {| os := o;
         entries := entries w ++
           [{| level := InfoLevel; message := "Getting containers from Apple Container" |};
            {| level := ErrorLevel;
               message := "Failed to get containers from Apple Container: "
                          +:+ Error err |}] |}))
  /\ (RunCommandWithOutput "container images list --format json" (os w)
      = ((output, Some err), o) ->
      GetImages RunCommandWithOutput Unmarshal c w
      = (([], Some (wrapError ("failed to get images: " +:+ Error err) err)),
         {| os := o;
            entries := entries w ++
              [{| level := InfoLevel; message := "Getting images from Apple Container" |};
               {| level := ErrorLevel;
                  message := "Failed to get images from Apple Container: "
                             +:+ Error err |}] |})).
Proof.
  split; intros Hrun.
  - unfold GetContainers, bind, runCommand, Log_at. simpl. rewrite Hrun. simpl.
    unfold logged. rewrite <- app_assoc. reflexivity.
  - unfold GetImages, bind, runCommand, Log_at. simpl. rewrite Hrun. simpl.
    unfold logged. rewrite <- app_assoc. reflexivity.
Qed.

(** X9. When the listing command succeeds, [GetContainers] and [GetImages]
    return what the parser makes of its output and a nil error, and end
    the log with the number of entities returned; the branch that reports a
    parse error is never taken. *)
Theorem retrieval_success c w (output : string) (o : OSState) :
  (RunCommandWithOutput "container ps --format json" (os w) = ((output, None), o) ->
   let parsed :=
     parseContainerList Unmarshal c output
       {| os := o;
          entries := logged InfoLevel "Getting containers from Apple Container"
                       (entries w) |} in
   GetContainers RunCommandWithOutput Unmarshal c w
   = ((fst (fst parsed), None),
      {| os := o;
         entries := logged InfoLevel
           ("Found " +:+ pretty (length (fst (fst parsed))) +:+ " containers")
           (entries (snd parsed)) |}))
  /\ (RunCommandWithOutput "container images list --format json" (os w)
      = ((output, None), o) ->
      let parsed :=
        parseImageList Unmarshal c output
          {| os := o;
             entries := logged InfoLevel "Getting images from Apple Container"
                          (entries w) |} in
      GetImages RunCommandWithOutput Unmarshal c w
      = ((fst (fst parsed), None),
         {| os := o;
            entries := logged InfoLevel
              ("Found " +:+ pretty (length (fst (fst parsed))) +:+ " images")
              (entries (snd parsed)) |})).
Proof.
  split; intros Hrun; cbv zeta.
  - unfold GetContainers, bind, runCommand, Log_at. simpl. rewrite Hrun. simpl.
    set (w1 := {| os := o; entries := _ |}).
    pose proof (parseContainerList_fst Unmarshal c output w1) as Hfst.
    pose proof (parseContainerList_os c output w1) as Hos.
    destruct (parseContainerList Unmarshal c output w1) as [[containers perr] w2].
    simpl in Hfst, Hos. injection Hfst as _ ->. simpl. rewrite Hos. reflexivity.
  - unfold GetImages, bind, runCommand, Log_at. simpl. rewrite Hrun. simpl.
    set (w1 := {| os := o; entries := _ |}).
    pose proof (parseImageList_fst Unmarshal c output w1) as Hfst.
    pose proof (parseImageList_os c output w1) as Hos.
    destruct (parseImageList Unmarshal c output w1) as [[images perr] w2].
    simpl in Hfst, Hos. injection Hfst as _ ->. simpl. rewrite Hos. reflexivity.
Qed.

Lemma parseContainerList_identity c (output : string) w :
  Forall (fun ctr => Container.ID ctr <> ""%string /\ Container.Name ctr <> ""%string)
    (fst (fst (parseContainerList Unmarshal c output w))).
Proof.
  rewrite parseContainerList_fst. simpl.
  destruct (String.eqb (strings.TrimSpace output) ""); [apply List.Forall_nil|].
  apply Forall_forall. intros ctr Hin.
  apply list_elem_of_omap in Hin as (line & _ & Hline).
  eapply entityOfLine_container, Hline.
Qed.

Lemma parseImageList_identity c (output : string) w :
  Forall (fun img => Image.ID img <> ""%string)
    (fst (fst (parseImageList Unmarshal c output w))).
Proof.
  rewrite parseImageList_fst. simpl.
  destruct (String.eqb (strings.TrimSpace output) ""); [apply List.Forall_nil|].
  apply Forall_forall. intros img Hin.
  apply list_elem_of_omap in Hin as (line & _ & Hline).
  eapply entityOfLine_image, Hline.
Qed.

(** X10. Whatever the machine does, [GetContainers] and [GetImages] run
    one command, and what they return is either an error with no entity or
    a nil error with entities that all have their identity: a non-empty ID,
    and for a Container a non-empty Name. *)
Theorem retrieval_invariant c w :
  (let r := GetContainers RunCommandWithOutput Unmarshal c w in
   Forall (fun ctr => Container.ID ctr <> ""%string /\ Container.Name ctr <> ""%string)
     (fst (fst r))
   /\ (is_Some (snd (fst r)) -> fst (fst r) = [])
   /\ os (snd r) = snd (RunCommandWithOutput "container ps --format json" (os w)))
  /\ (let r := GetImages RunCommandWithOutput Unmarshal c w in
      Forall (fun img => Image.ID img <> ""%string) (fst (fst r))
      /\ (is_Some (snd (fst r)) -> fst (fst r) = [])
      /\ os (snd r) = snd (RunCommandWithOutput "container images list --format json" (os w))).
Proof.
  split; cbv zeta.
  - unfold GetContainers, bind, runCommand, Log_at. simpl.
    destruct (RunCommandWithOutput "container ps --format json" (os w))
      as [[output [err|]] o]; simpl.
    { split; [apply List.Forall_nil|]. split; reflexivity. }
    set (w1 := {| os := o; entries := _ |}).
    pose proof (parseContainerList_fst Unmarshal c output w1) as Hfst.
    pose proof (parseContainerList_os c output w1) as Hos.
    pose proof (parseContainerList_identity c output w1) as Hid.
    destruct (parseContainerList Unmarshal c output w1) as [[containers perr] w2].
    simpl in Hfst, Hos, Hid. injection Hfst as _ ->. simpl.
    split; [exact Hid|]. split; [intros [e He]; discriminate He|exact Hos].
  - unfold GetImages, bind, runCommand, Log_at. simpl.
    destruct (RunCommandWithOutput "container images list --format json" (os w))
      as [[output [err|]] o]; simpl.
    { split; [apply List.Forall_nil|]. split; reflexivity. }
    set (w1 := {| os := o; entries := _ |}).
    pose proof (parseImageList_fst Unmarshal c output w1) as Hfst.
    pose proof (parseImageList_os c output w1) as Hos.
    pose proof (parseImageList_identity c output w1) as Hid.
    destruct (parseImageList Unmarshal c output w1) as [[images perr] w2].
    simpl in Hfst, Hos, Hid. injection Hfst as _ ->. simpl.
    split; [exact Hid|]. split; [intros [e He]; discriminate He|exact Hos].
Qed.

(** X11. [SystemStatus] is all or nothing: it never returns a map together
    with an error; when the status command fails it returns the command's
    error wrapped, whatever the output; and it logs one info entry and
    nothing else, its failures included. *)
Theorem status_all_or_nothing c w :
  let r := SystemStatus RunCommandWithOutput Unmarshal c w in
  (is_Some (snd (fst r)) -> fst (fst r) = None)
  /\ (forall err,
        snd (fst (RunCommandWithOutput "container system status --format json" (os w)))
        = Some err ->
        fst r = (None, Some (wrapError ("failed to get system status: " +:+ Error err) err)))
  /\ entries (snd r)
     = entries w ++ [{| level := InfoLevel;
                        message := "Getting Apple Container system status" |}]
  /\ os (snd r)
     = snd (RunCommandWithOutput "container system status --format json" (os w)).
Proof.
  cbv zeta. unfold SystemStatus, bind, runCommand, Log_at. simpl.
  destruct (RunCommandWithOutput "container system status --format json" (os w))
    as [[output [err|]] o]; simpl.
  - repeat split. intros err' [= <-]. reflexivity.
  - destruct (Unmarshal output) as [e|status]; simpl; repeat split;
      try discriminate; intros [x Hx]; discriminate Hx.
Qed.

End Retrieval.

(** ** Construction and the lifecycle operations *)

Section Operations.

Context {OSState : Type}.
Context (RunCommand : string -> OSState -> option error * OSState).
Context (LookPath : string -> OSState -> string * option error).
Implicit Types (c : AppleContainerCommand) (w : World OSState).

(** X12. [NewAppleContainerCommand] changes nothing and returns either a
    handler made of its five arguments and a nil error, when "container"
    is found on the machine, or no handler and an error that says that the
    CLI was not found, when it is not. *)
Theorem construction_needs_cli (log osCommand tr config errorChan : ptr) w :
  let r := NewAppleContainerCommand LookPath log osCommand tr config errorChan w in
  snd r = w
  /\ (snd (LookPath "container" (os w)) = None ->
      fst r = (Some {| Log := log; OSCommand := osCommand; Tr := tr;
                       Config := config; ErrorChan := errorChan |}, None))
  /\ (snd (LookPath "container" (os w)) <> None ->
      exists err, fst r = (None, Some err)
        /\ String.prefix "Apple Container CLI not found" (Error err) = true).
Proof.
  cbv zeta. unfold NewAppleContainerCommand, isAppleContainerAvailable, bind, ret.
  destruct (snd (LookPath "container" (os w))) as [e|]; simpl.
  - split; [reflexivity|]. split; [discriminate|].
    intros _. eexists. split; reflexivity.
  - split; [reflexivity|]. split; [reflexivity|]. intros H. contradiction H. reflexivity.
Qed.

Local Ltac issued :=
  intros w; unfold BuildImage, RunContainer, StopContainer, RemoveContainer,
    ExecCommand, SystemStart, SystemStop, bind, Log_at, execute; simpl;
  rewrite ?append_assoc; simpl;
  destruct (RunCommand _ (os w)); reflexivity.

(** Each of the seven operations logs one info entry, runs exactly
    one command of the container program, made of its arguments as they
    are, and returns the error of that command unwrapped. *)
Theorem lifecycle_commands c (tag dockerfile name image nameOrID command : string) :
  issues RunCommand (BuildImage RunCommand c tag dockerfile)
    ("Building image with tag " +:+ tag +:+ " using dockerfile " +:+ dockerfile)
    ("container build --tag " +:+ tag +:+ " --file " +:+ dockerfile +:+ " .")
  /\ issues RunCommand (RunContainer RunCommand c name image true)
       ("Running container " +:+ name +:+ " from image " +:+ image)
       ("container run --name " +:+ name +:+ " --detach " +:+ image)
  /\ issues RunCommand (RunContainer RunCommand c name image false)
       ("Running container " +:+ name +:+ " from image " +:+ image)
       ("container run --name " +:+ name +:+ " " +:+ image)
  /\ issues RunCommand (StopContainer RunCommand c nameOrID)
       ("Stopping container " +:+ nameOrID) ("container stop " +:+ nameOrID)
  /\ issues RunCommand (RemoveContainer RunCommand c nameOrID true)
       ("Removing container " +:+ nameOrID +:+ " (force: true)")
       ("container rm --force " +:+ nameOrID)
  /\ issues RunCommand (RemoveContainer RunCommand c nameOrID false)
       ("Removing container " +:+ nameOrID +:+ " (force: false)")
       ("container rm " +:+ nameOrID)
  /\ issues RunCommand (ExecCommand RunCommand c nameOrID command)
       ("Executing command in container " +:+ nameOrID +:+ ": " +:+ command)
       ("container exec " +:+ nameOrID +:+ " " +:+ command)
  /\ issues RunCommand (SystemStart RunCommand c)
       "Starting Apple Container system services" "container system start"
  /\ issues RunCommand (SystemStop RunCommand c)
       "Stopping Apple Container system services" "container system stop".
Proof. repeat split; issued. Qed.

(** The outcome of a command depends on the command and the machine, not
    on the log. *)
Lemma execute_eq (cmd cmd' : string) w w' :
  cmd = cmd' -> os w = os w' ->
  fst (execute RunCommand cmd w) = fst (execute RunCommand cmd' w')
  /\ os (snd (execute RunCommand cmd w)) = os (snd (execute RunCommand cmd' w')).
Proof.
  intros -> H. unfold execute. rewrite H.
  destruct (RunCommand cmd' (os w')). split; reflexivity.
Qed.

Local Ltac same_command :=
  unfold BuildImage, RunContainer, RemoveContainer, ExecCommand, bind, Log_at;
  cbv zeta; apply execute_eq; [rewrite ?append_assoc; reflexivity|reflexivity].

(** X13. Nothing is quoted: a flag written into an argument is a flag.
    Whatever the executor, running a container named [name ++ " --detach"]
    attached runs the command, and has the outcome, of running [name]
    detached, and removing ["--force " ++ nameOrID] without force that of
    removing [nameOrID] with force. *)
Theorem flag_in_argument c (name image nameOrID : string) w :
  (fst (RunContainer RunCommand c (name +:+ " --detach") image false w)
   = fst (RunContainer RunCommand c name image true w)
   /\ os (snd (RunContainer RunCommand c (name +:+ " --detach") image false w))
      = os (snd (RunContainer RunCommand c name image true w)))
  /\ (fst (RemoveContainer RunCommand c ("--force " +:+ nameOrID) false w)
      = fst (RemoveContainer RunCommand c nameOrID true w)
      /\ os (snd (RemoveContainer RunCommand c ("--force " +:+ nameOrID) false w))
         = os (snd (RemoveContainer RunCommand c nameOrID true w))).
Proof. split; same_command. Qed.

(** X14. Nor are the arguments kept apart: a space moves the boundary
    between them.  Executing [b] in the container [n ++ " " ++ a] runs the
    command of executing [a ++ " " ++ b] in [n], and building with the tag
    [t ++ " --file " ++ x] and the dockerfile [d] that of building with the
    tag [t] and the dockerfile [x ++ " --file " ++ d]. *)
Theorem argument_boundaries c (n a b t x d : string) w :
  (fst (ExecCommand RunCommand c (n +:+ " " +:+ a) b w)
   = fst (ExecCommand RunCommand c n (a +:+ " " +:+ b) w)
   /\ os (snd (ExecCommand RunCommand c (n +:+ " " +:+ a) b w))
      = os (snd (ExecCommand RunCommand c n (a +:+ " " +:+ b) w)))
  /\ (fst (BuildImage RunCommand c (t +:+ " --file " +:+ x) d w)
      = fst (BuildImage RunCommand c t (x +:+ " --file " +:+ d) w)
      /\ os (snd (BuildImage RunCommand c (t +:+ " --file " +:+ x) d w))
         = os (snd (BuildImage RunCommand c t (x +:+ " --file " +:+ d) w))).
Proof. split; same_command. Qed.

End Operations.

(** X15. [StopContainer] and, for a given force flag, [RemoveContainer]
    never issue the same command for two targets: on an executor that
    keeps the commands it is given, different targets leave different
    commands. *)
Theorem target_determined (c : AppleContainerCommand) (n n' : string) (force : bool)
    (w : World (list string)) :
  n <> n' ->
  os (snd (StopContainer recording c n w)) <> os (snd (StopContainer recording c n' w))
  /\ os (snd (RemoveContainer recording c n force w))
     <> os (snd (RemoveContainer recording c n' force w)).
Proof.
  intros Hne.
  unfold StopContainer, RemoveContainer, bind, Log_at, execute, recording. simpl.
  split; intros H; apply app_inj_tail in H as [_ H]; apply Hne.
  - apply (inj _) in H. exact H.
  - destruct force; rewrite ?append_assoc in H;
      repeat apply (inj (String.app _)) in H; exact H.
Qed.

(** ** The further properties on concrete inputs *)

(** The mappers on a record whose id is a number and on one whose name is. *)
Example test_wrong_types :
  fst (jsonToContainer cmd0 numericIdRecord world0) = None
  /\ fst (jsonToImage cmd0 numericNameImage world0) = Some (imageFor cmd0 "img123" "" "").
Proof. repeat split; evaluate. Qed.

(** X2 on the two test containers with a line of spaces and a tab between
    them. *)
Lemma blank_line_skipped_witness :
  (strings.Split (strings.TrimSpace spacedContainers) nl
   = [container1Line] ++ ("  " +:+ EncodeRune 9) :: [container2Line]
   /\ strings.TrimSpace ("  " +:+ EncodeRune 9) = ""%string)
  /\ parseContainerList RefJSON.Unmarshal cmd0 spacedContainers world0
     = parseContainerList RefJSON.Unmarshal cmd0 twoContainers world0.
Proof.
  split; [split; evaluate|].
  apply (proj1 (blank_line_skipped RefJSON.Unmarshal cmd0 spacedContainers twoContainers
                  [container1Line] [container2Line] ("  " +:+ EncodeRune 9) world0
                  ltac:(evaluate) ltac:(evaluate) ltac:(evaluate))).
Defined.

Lemma Blank_padding :
  Blank (EncodeRune 10 +:+ EncodeRune 160 +:+ "")
  /\ Blank (EncodeRune 13 +:+ EncodeRune 10 +:+ "").
Proof. split; repeat (apply Blank_rune; [simpl; tauto|]); apply Blank_nil. Defined.

(** X3 on the two test containers after a line feed and U+00A0 and before
    a carriage return and a line feed. *)
Lemma outer_space_ignored_witness :
  (Blank (EncodeRune 10 +:+ EncodeRune 160 +:+ "")
   /\ Blank (EncodeRune 13 +:+ EncodeRune 10 +:+ ""))
  /\ parseContainerList RefJSON.Unmarshal cmd0 paddedContainers world0
     = parseContainerList RefJSON.Unmarshal cmd0 twoContainers world0.
Proof.
  split; [exact Blank_padding|].
  apply (proj1 (outer_space_ignored RefJSON.Unmarshal cmd0
                  (EncodeRune 10 +:+ EncodeRune 160 +:+ "") twoContainers
                  (EncodeRune 13 +:+ EncodeRune 10 +:+ "") world0
                  (proj1 Blank_padding) (proj2 Blank_padding))).
Defined.

(** X8 on a command that prints a valid record and fails. *)
Lemma retrieval_failure_witness :
  replay "container ps --format json"
    (os (failing runningLine (errorString "exit status 1")))
  = ((runningLine, Some (errorString "exit status 1")), [])
  /\ fst (GetContainers replay RefJSON.Unmarshal cmd0
            (failing runningLine (errorString "exit status 1")))
     = ([], Some (wrapError "failed to get containers: exit status 1"
                    (errorString "exit status 1"))).
Proof.
  split; [reflexivity|].
  rewrite (proj1 (retrieval_failure replay RefJSON.Unmarshal cmd0
                    (failing runningLine (errorString "exit status 1"))
                    runningLine (errorString "exit status 1") [])
             ltac:(reflexivity)).
  reflexivity.
Defined.

(** X9 on a command that prints the two test containers. *)
Lemma retrieval_success_witness :
  replay "container ps --format json" (os (printing twoContainers))
  = ((twoContainers, None), [])
  /\ fst (GetContainers replay RefJSON.Unmarshal cmd0 (printing twoContainers))
     = ([containerFor cmd0 "abc123" "test-container-1";
         containerFor cmd0 "def456" "test-container-2"], None)
  /\ last (entries (snd (GetContainers replay RefJSON.Unmarshal cmd0
                           (printing twoContainers))))
     = Some {| level := InfoLevel; message := "Found 2 containers" |}.
Proof.
  split; [reflexivity|].
  rewrite (proj1 (retrieval_success replay RefJSON.Unmarshal cmd0
                    (printing twoContainers) twoContainers [])
             ltac:(reflexivity)).
  split; evaluate.
Defined.

(** X12 on a machine that has the CLI and on one that has not. *)
Lemma construction_needs_cli_witness :
  (snd (installed "container" (os (Build_World ["container"; "docker"] []))) = None
   /\ fst (NewAppleContainerCommand installed 1%positive 2%positive 3%positive
             4%positive 5%positive (Build_World ["container"; "docker"] []))
      = (Some cmd0, None))
  /\ (snd (installed "container" (os (Build_World ["docker"] []))) <> None
      /\ exists err,
           fst (NewAppleContainerCommand installed 1%positive 2%positive 3%positive
                  4%positive 5%positive (Build_World ["docker"] []))
           = (None, Some err)
           /\ String.prefix "Apple Container CLI not found" (Error err) = true).
Proof.
  split; (split; [first [reflexivity|discriminate]|]).
  - apply (proj1 (proj2 (construction_needs_cli installed 1%positive 2%positive
                           3%positive 4%positive 5%positive
                           (Build_World ["container"; "docker"] [])))).
    reflexivity.
  - apply (proj2 (proj2 (construction_needs_cli installed 1%positive 2%positive
                           3%positive 4%positive 5%positive
                           (Build_World ["docker"] [])))).
    discriminate.
Defined.

(** X15 on two targets. *)
Lemma target_determined_witness :
  "web"%string <> "db"%string
  /\ os (snd (StopContainer recording cmd0 "web" (Build_World [] [])))
     <> os (snd (StopContainer recording cmd0 "db" (Build_World [] []))).
Proof.
  split; [discriminate|].
  apply (proj1 (target_determined cmd0 "web" "db" false (Build_World [] [])
                  ltac:(discriminate))).
Defined.

(** X16 on the malformed line between the two test containers. *)
Lemma malformed_line_between_records_witness :
  (Forall (fun l => recordText l = true) [container1Line]
   /\ Forall (fun l => recordText l = true) [container2Line]
   /\ hasByte nl invalidLine = false
   /\ RefJSON.Unmarshal invalidLine = inl (errorString "json: syntax error"))
  /\ fst (parseContainerList RefJSON.Unmarshal cmd0 brokenContainers world0)
     = fst (parseContainerList RefJSON.Unmarshal cmd0 twoContainers world0).
Proof.
  assert (H1 : Forall (fun l => recordText l = true) [container1Line])
    by (apply List.Forall_cons; [evaluate|apply List.Forall_nil]).
  assert (H2 : Forall (fun l => recordText l = true) [container2Line])
    by (apply List.Forall_cons; [evaluate|apply List.Forall_nil]).
  split; [repeat split; first [assumption|evaluate]|].
  apply (proj1 (malformed_line_between_records RefJSON.Unmarshal cmd0
                  [container1Line] [container2Line] invalidLine
                  (errorString "json: syntax error") world0 world0
                  ltac:(discriminate) ltac:(discriminate) H1 H2
                  ltac:(evaluate) ltac:(evaluate))).
Defined.
